(** * Template Management API: the request handlers of [src/app.py]

    The handlers of the Flask application are embedded as functions from the
    request (caller identity, path parameter, JSON body), the request's
    environment (clock, generated identifiers, salt) and the MongoDB store to
    a response and the store afterwards.  Python exceptions are explicit: a
    small state-and-exception monad keeps the store a handler leaves behind
    when it raises, as the database does.

    What lies before a handler is not modelled: [jwt_required] has accepted
    the token and [get_jwt_identity()] is the handler's [current_user];
    [request.get_json()] has returned the handler's [data].

    Scope of the data: JSON field values are scalars (null, booleans,
    integers, strings); floats, arrays and nested objects are left out.
    The libraries the handlers call ([bson.ObjectId], [werkzeug.security],
    [datetime]) are interfaces; the instances given here serve to run the
    handlers on concrete requests. *)

From Stdlib Require Import ZArith List String Ascii Bool Lia DecimalString.
Import ListNotations.
Local Open Scope string_scope.
Local Open Scope list_scope.
Local Open Scope Z_scope.

(** ** [bson.ObjectId] *)

(** What the handlers use of [bson.ObjectId]: equality, [str(oid)], and the
    constructor applied to a [str], which raises [InvalidId] unless the text
    is 24 characters that [bytes.fromhex] accepts.  [ObjectId(str(o)) == o]
    holds for every identifier. *)
Class ObjectIdType : Type := {
  oid : Type;
  oid_eqb : oid -> oid -> bool;
  oid_eqb_eq : forall a b, oid_eqb a b = true <-> a = b;
  oid_str : oid -> string;
  oid_of_str : string -> option oid;
  oid_of_str_str : forall o, oid_of_str (oid_str o) = Some o
}.

(** An instance for running examples: identifiers in canonical form, 24
    lower-case hexadecimal digits. *)
Module Hex24.

Definition is_hex (c : ascii) : bool :=
  let n := nat_of_ascii c in
  ((48 <=? n)%nat && (n <=? 57)%nat) || ((97 <=? n)%nat && (n <=? 102)%nat).

Definition hex24 (s : string) : bool :=
  (String.length s =? 24)%nat && forallb is_hex (list_ascii_of_string s).

Definition t : Type := { s : string | hex24 s = true }.

Definition eqb (a b : t) : bool := String.eqb (proj1_sig a) (proj1_sig b).

Definition str (a : t) : string := proj1_sig a.

Definition of_str (s : string) : option t :=
  match bool_dec (hex24 s) true with
  | left H => Some (exist _ s H)
  | right _ => None
  end.

Lemma sig_eq (a b : t) : proj1_sig a = proj1_sig b -> a = b.
Proof.
  destruct a as [x Hx], b as [y Hy]; simpl; intros ->.
  f_equal. apply (Eqdep_dec.UIP_dec bool_dec).
Qed.

Lemma eqb_eq (a b : t) : eqb a b = true <-> a = b.
Proof.
  unfold eqb; rewrite String.eqb_eq; split.
  - apply sig_eq.
  - now intros ->.
Qed.

Lemma of_str_str (a : t) : of_str (str a) = Some a.
Proof.
  unfold of_str, str.
  destruct (bool_dec (hex24 (proj1_sig a)) true) as [H|H].
  - apply f_equal, sig_eq; reflexivity.
  - destruct a as [x Hx]; simpl in H; contradiction.
Qed.

Definition instance : ObjectIdType :=
  {| oid := t; oid_eqb := eqb; oid_eqb_eq := eqb_eq;
     oid_str := str; oid_of_str := of_str; oid_of_str_str := of_str_str |}.

(** [mk s] is the identifier written [s] (a default one when [s] is not in
    canonical form). *)
Definition zero : t := exist _ "000000000000000000000000" eq_refl.
Definition mk (s : string) : t :=
  match of_str s with Some o => o | None => zero end.

End Hex24.

(** A second instance, which reads identifiers in either case as
    [bytes.fromhex] does: ["AB..."] and ["ab..."] are one identifier, whose
    text is the lower-case one. *)
Module HexAnyCase.

Definition lower_char (c : ascii) : ascii :=
  let n := nat_of_ascii c in
  if ((65 <=? n)%nat && (n <=? 70)%nat)%bool then ascii_of_nat (n + 32) else c.

Fixpoint lower (s : string) : string :=
  match s with
  | EmptyString => EmptyString
  | String c s' => String (lower_char c) (lower s')
  end.

Definition of_str (s : string) : option Hex24.t := Hex24.of_str (lower s).

Lemma lower_char_hex (c : ascii) : Hex24.is_hex c = true -> lower_char c = c.
Proof.
  unfold Hex24.is_hex, lower_char.
  destruct ((65 <=? nat_of_ascii c)%nat && (nat_of_ascii c <=? 70)%nat)%bool eqn:E;
    [|reflexivity].
  apply andb_prop in E as [E1 E2].
  apply Nat.leb_le in E1. apply Nat.leb_le in E2.
  intros H. apply orb_prop in H as [H|H]; apply andb_prop in H as [H1 H2];
    apply Nat.leb_le in H1; apply Nat.leb_le in H2; lia.
Qed.

Lemma lower_hex (s : string) :
  forallb Hex24.is_hex (list_ascii_of_string s) = true -> lower s = s.
Proof.
  induction s as [|c s IH]; simpl; [reflexivity|].
  intros H. apply andb_prop in H as [Hc Hs].
  now rewrite (lower_char_hex c Hc), IH.
Qed.

Lemma of_str_any_case_str (a : Hex24.t) : of_str (Hex24.str a) = Some a.
Proof.
  unfold of_str. rewrite lower_hex; [apply Hex24.of_str_str|].
  destruct a as [s Hs]; simpl. unfold Hex24.hex24 in Hs.
  now apply andb_prop in Hs as [_ Hs].
Qed.

Definition instance : ObjectIdType :=
  {| oid := Hex24.t; oid_eqb := Hex24.eqb; oid_eqb_eq := Hex24.eqb_eq;
     oid_str := Hex24.str; oid_of_str := of_str; oid_of_str_str := of_str_any_case_str |}.

End HexAnyCase.

Section Model.

Context {OID : ObjectIdType}.

(** ** Values, dictionaries, exceptions *)

(** Python values that occur in request bodies and stored documents.
    [VDate t] is a [datetime] as BSON keeps it, in milliseconds. *)
Inductive value : Type :=
| VNone
| VBool (b : bool)
| VInt (n : Z)
| VStr (s : string)
| VOid (o : oid)
| VDate (t : Z).

(** A Python [dict] with string keys, in insertion order. *)
Definition dict : Type := list (string * value).

(** What [request.get_json()] returns: a JSON object or a JSON scalar
    ([None] is [JScalar VNone]). *)
Inductive json : Type :=
| JScalar (v : value)
| JObject (d : dict).

Inductive exc : Type :=
| KeyError (k : string)
| TypeError (op : string) (v : value)
| AttributeError (v : value) (attr : string)
| InvalidId (v : value)
| OverflowError
| DuplicateKeyError (o : oid)
| LibraryError (msg : string).

Inductive result (A : Type) : Type :=
| Ok (a : A)
| Raise (e : exc).
Arguments Ok {A} a.
Arguments Raise {A} e.

(** [werkzeug.security] and the text forms of [datetime].  The first
    argument of [generate_password_hash] is the salt the library draws. *)
Class Library : Type := {
  generate_password_hash : string -> value -> result string;
  check_password_hash : value -> value -> result bool;
  isoformat : Z -> string;
  str_datetime : Z -> string
}.

Context {LIB : Library}.

Definition value_eqb (a b : value) : bool :=
  match a, b with
  | VNone, VNone => true
  | VBool x, VBool y => Bool.eqb x y
  | VInt x, VInt y => Z.eqb x y
  | VStr x, VStr y => String.eqb x y
  | VOid x, VOid y => oid_eqb x y
  | VDate x, VDate y => Z.eqb x y
  | _, _ => false
  end.

Fixpoint dict_eqb (a b : dict) : bool :=
  match a, b with
  | [], [] => true
  | (k, v) :: a', (k', v') :: b' =>
      String.eqb k k' && value_eqb v v' && dict_eqb a' b'
  | _, _ => false
  end.

(** [d.get(k)] *)
Fixpoint lookup (k : string) (d : dict) : option value :=
  match d with
  | [] => None
  | (k', v) :: d' => if String.eqb k k' then Some v else lookup k d'
  end.

(** [d[k] = v]: an existing key keeps its place, a new one goes last. *)
Fixpoint dict_set (k : string) (v : value) (d : dict) : dict :=
  match d with
  | [] => [(k, v)]
  | (k', v') :: d' =>
      if String.eqb k k' then (k', v) :: d' else (k', v') :: dict_set k v d'
  end.

(** [str(v)] *)
Definition py_str (v : value) : string :=
  match v with
  | VNone => "None"
  | VBool true => "True"
  | VBool false => "False"
  | VInt n => NilZero.string_of_int (Z.to_int n)
  | VStr s => s
  | VOid o => oid_str o
  | VDate t => str_datetime t
  end.

(** Truth value of a Python object, as [if not data] tests it. *)
Definition truthy_value (v : value) : bool :=
  match v with
  | VNone => false
  | VBool b => b
  | VInt n => negb (n =? 0)
  | VStr s => negb (String.eqb s "")
  | VOid _ | VDate _ => true
  end.

Definition truthy (data : json) : bool :=
  match data with
  | JScalar v => truthy_value v
  | JObject [] => false
  | JObject (_ :: _) => true
  end.

(** [needle in hay] on two strings *)
Fixpoint contains (needle hay : string) : bool :=
  if String.prefix needle hay then true
  else match hay with
       | EmptyString => false
       | String _ hay' => contains needle hay'
       end.

(** [field in data] *)
Definition py_in (field : string) (data : json) : result bool :=
  match data with
  | JObject d => Ok (match lookup field d with Some _ => true | None => false end)
  | JScalar (VStr s) => Ok (contains field s)
  | JScalar v => Raise (TypeError "in" v)
  end.

(** [all(field in data for field in fields)]: stops at the first absent
    field. *)
Fixpoint all_in (fields : list string) (data : json) : result bool :=
  match fields with
  | [] => Ok true
  | f :: fs =>
      match py_in f data with
      | Ok true => all_in fs data
      | Ok false => Ok false
      | Raise e => Raise e
      end
  end.

(** [data[k]] *)
Definition getitem (data : json) (k : string) : result value :=
  match data with
  | JObject d =>
      match lookup k d with Some v => Ok v | None => Raise (KeyError k) end
  | JScalar v => Raise (TypeError "getitem" v)
  end.

(** [ObjectId(v)]: [None] generates a new identifier, a [str] is validated,
    anything else is a [TypeError]. *)
Definition ObjectId (generated : oid) (v : value) : result oid :=
  match v with
  | VNone => Ok generated
  | VStr s =>
      match oid_of_str s with
      | Some o => Ok o
      | None => Raise (InvalidId v)
      end
  | VOid o => Ok o
  | _ => Raise (TypeError "ObjectId" v)
  end.

(** [v.isoformat()] *)
Definition py_isoformat (v : value) : result value :=
  match v with
  | VDate t => Ok (VStr (isoformat t))
  | _ => Raise (AttributeError v "isoformat")
  end.

(** ** The store *)

(** A stored document: the [_id] the driver generated at insertion and the
    other fields. *)
Record document : Type := { doc_id : oid; doc_body : dict }.

(** The [dict] a query hands to Python, [_id] first. *)
Definition py_dict (d : document) : dict := ("_id", VOid (doc_id d)) :: doc_body d.

Record store : Type := {
  users : list document;
  templates : list document;
  tasks : list document
}.

Inductive collection : Type := Users | Templates | Tasks.

Definition get_coll (c : collection) (s : store) : list document :=
  match c with
  | Users => users s
  | Templates => templates s
  | Tasks => tasks s
  end.

Definition set_coll (c : collection) (l : list document) (s : store) : store :=
  match c with
  | Users => {| users := l; templates := templates s; tasks := tasks s |}
  | Templates => {| users := users s; templates := l; tasks := tasks s |}
  | Tasks => {| users := users s; templates := templates s; tasks := l |}
  end.

(** The conditions the handlers' filters are made of. *)
Inductive cond : Type :=
| IdEq (o : oid)                   (* {'_id': o} *)
| IdNe (o : oid)                   (* {'_id': {'$ne': o}} *)
| FieldEq (k : string) (v : value) (* {k: v} *).

Definition query : Type := list cond.

(** Equality match on a scalar: [null] also matches an absent field. *)
Definition field_matches (stored : option value) (q : value) : bool :=
  match stored, q with
  | Some v, _ => value_eqb v q
  | None, VNone => true
  | None, _ => false
  end.

Definition cond_holds (d : document) (c : cond) : bool :=
  match c with
  | IdEq o => oid_eqb (doc_id d) o
  | IdNe o => negb (oid_eqb (doc_id d) o)
  | FieldEq k v => field_matches (lookup k (doc_body d)) v
  end.

Definition matches (q : query) (d : document) : bool := forallb (cond_holds d) q.

(** The driver encodes integers in at most 8 bytes and raises
    [OverflowError] beyond. *)
Definition bson_ok (v : value) : bool :=
  match v with
  | VInt n => (- 2 ^ 63 <=? n) && (n <? 2 ^ 63)
  | _ => true
  end.

Definition query_ok (q : query) : bool :=
  forallb (fun c => match c with FieldEq _ v => bson_ok v | _ => true end) q.

Definition dict_ok (d : dict) : bool := forallb (fun kv => bson_ok (snd kv)) d.

Definition doc_eqb (a b : document) : bool :=
  oid_eqb (doc_id a) (doc_id b) && dict_eqb (doc_body a) (doc_body b).

(** [{'$set': upd}] applied to a document *)
Definition set_fields (upd : dict) (d : document) : document :=
  {| doc_id := doc_id d;
     doc_body := fold_left (fun b kv => dict_set (fst kv) (snd kv) b) upd (doc_body d) |}.

(** The first matching document is rewritten; the count is 1 only when the
    rewritten document differs from the stored one. *)
Fixpoint update_first (q : query) (upd : dict) (l : list document)
  : list document * Z :=
  match l with
  | [] => ([], 0)
  | d :: l' =>
      if matches q d
      then (set_fields upd d :: l', if doc_eqb d (set_fields upd d) then 0 else 1)
      else let (l'', n) := update_first q upd l' in (d :: l'', n)
  end.

Fixpoint delete_first (q : query) (l : list document) : list document * Z :=
  match l with
  | [] => ([], 0)
  | d :: l' =>
      if matches q d then (l', 1)
      else let (l'', n) := delete_first q l' in (d :: l'', n)
  end.

(** ** Handlers run in a state-and-exception monad *)

Definition M (A : Type) : Type := store -> result A * store.

Definition ret {A} (a : A) : M A := fun s => (Ok a, s).

Definition lift {A} (r : result A) : M A := fun s => (r, s).

Definition bind {A B} (m : M A) (k : A -> M B) : M B :=
  fun s =>
    match m s with
    | (Ok a, s') => k a s'
    | (Raise e, s') => (Raise e, s')
    end.

Notation "x <- m ;; k" := (bind m (fun x => k))
  (at level 61, m at next level, right associativity).

(** [db.c.find_one(q)] *)
Definition find_one (c : collection) (q : query) : M (option document) :=
  fun s =>
    if query_ok q then (Ok (List.find (matches q) (get_coll c s)), s)
    else (Raise OverflowError, s).

(** [list(db.c.find(q))] *)
Definition find (c : collection) (q : query) : M (list document) :=
  fun s =>
    if query_ok q then (Ok (List.filter (matches q) (get_coll c s)), s)
    else (Raise OverflowError, s).

(** [db.c.insert_one(body).inserted_id], the driver generating [new_id]. *)
Definition insert_one (c : collection) (new_id : oid) (body : dict) : M oid :=
  fun s =>
    if negb (dict_ok body) then (Raise OverflowError, s)
    else if existsb (oid_eqb new_id) (map doc_id (get_coll c s))
    then (Raise (DuplicateKeyError new_id), s)
    else (Ok new_id, set_coll c (get_coll c s ++ [{| doc_id := new_id; doc_body := body |}]) s).

(** [db.c.update_one(q, {'$set': upd}).modified_count] *)
Definition update_one (c : collection) (q : query) (upd : dict) : M Z :=
  fun s =>
    if query_ok q && dict_ok upd
    then let (l, n) := update_first q upd (get_coll c s) in (Ok n, set_coll c l s)
    else (Raise OverflowError, s).

(** [db.c.delete_one(q).deleted_count] *)
Definition delete_one (c : collection) (q : query) : M Z :=
  fun s =>
    if query_ok q
    then let (l, n) := delete_first q (get_coll c s) in (Ok n, set_coll c l s)
    else (Raise OverflowError, s).

(** ** Requests and responses *)

(** What a request draws from outside: [datetime.utcnow()] as BSON stores
    it, the [_id] the driver generates for an insertion, the identifier
    [ObjectId(None)] generates, and the salt of the password hash. *)
Record env : Type := {
  now : Z;
  new_id : oid;
  generated : oid;
  salt : string
}.

(** The JSON bodies the handlers build.  [LoginOk sub] carries the access
    token, represented by the identity it is created for. *)
Inductive body : Type :=
| Message (msg : string)                          (* {'message': msg} *)
| ErrorMessage (e : exc)                          (* {'message': str(e)} *)
| LoginOk (sub : string)                          (* message and access_token *)
| Created (msg : string) (id : string)            (* {'message': msg, 'id': id} *)
| Updated (msg : string) (notification : string)  (* message and notification *)
| Doc (d : dict)                                  (* jsonify(document) *)
| Docs (l : list dict)                            (* jsonify(list) *).

Definition response : Type := (body * Z)%type.

Inductive method : Type := GET | PUT | DELETE.

(** [try: ... except Exception as e: return jsonify({'message': str(e)}), 500] *)
Definition try_except (m : M response) : store -> response * store :=
  fun s =>
    match m s with
    | (Ok r, s') => (r, s')
    | (Raise e, s') => ((ErrorMessage e, 500), s')
    end.

(** [d[k]] on a [dict] *)
Definition dict_getitem (d : dict) (k : string) : result value :=
  match lookup k d with Some v => Ok v | None => Raise (KeyError k) end.

(** [u[k]] where [u] is the outcome of [find_one], possibly [None] *)
Definition found_getitem (u : option document) (k : string) : result value :=
  match u with
  | Some d => dict_getitem (py_dict d) k
  | None => Raise (TypeError "getitem" VNone)
  end.

(** [d[k] = str(d[k])] *)
Definition stringify (k : string) (d : dict) : result dict :=
  match dict_getitem d k with
  | Ok v => Ok (dict_set k (VStr (py_str v)) d)
  | Raise e => Raise e
  end.

(** [if k in d: d[k] = d[k].isoformat()] *)
Definition isoformat_field (k : string) (d : dict) : result dict :=
  match lookup k d with
  | Some v =>
      match py_isoformat v with
      | Ok s => Ok (dict_set k s d)
      | Raise e => Raise e
      end
  | None => Ok d
  end.

Fixpoint map_result {A B} (f : A -> result B) (l : list A) : result (list B) :=
  match l with
  | [] => Ok []
  | a :: l' =>
      match f a with
      | Ok b =>
          match map_result f l' with
          | Ok bs => Ok (b :: bs)
          | Raise e => Raise e
          end
      | Raise e => Raise e
      end
  end.

(** ** The handlers *)

(** [POST /register] *)
Definition register (e : env) (data : json) : store -> response * store :=
  try_except (
    if negb (truthy data) then ret (Message "No input data provided", 400) else
    present <- lift (all_in ["first_name"; "last_name"; "email"; "password"] data) ;;
    if negb present then ret (Message "Missing required fields", 400) else
    email <- lift (getitem data "email") ;;
    existing <- find_one Users [FieldEq "email" email] ;;
    match existing with   (* a document found is never an empty dict *)
    | Some _ => ret (Message "Email already registered", 400)
    | None =>
        first_name <- lift (getitem data "first_name") ;;
        last_name <- lift (getitem data "last_name") ;;
        email <- lift (getitem data "email") ;;
        password <- lift (getitem data "password") ;;
        hash <- lift (generate_password_hash (salt e) password) ;;
        let user := [("first_name", first_name); ("last_name", last_name);
                     ("email", email); ("password", VStr hash);
                     ("created_at", VDate (now e))] in
        _ <- insert_one Users (new_id e) user ;;
        ret (Message "User registered successfully", 201)
    end).

(** [POST /login] *)
Definition login (data : json) : store -> response * store :=
  try_except (
    if negb (truthy data) then ret (Message "No input data provided", 400) else
    present <- lift (all_in ["email"; "password"] data) ;;
    if negb present then ret (Message "Missing email or password", 400) else
    email <- lift (getitem data "email") ;;
    user <- find_one Users [FieldEq "email" email] ;;
    match user with
    | Some u =>
        hash <- lift (dict_getitem (py_dict u) "password") ;;
        password <- lift (getitem data "password") ;;
        ok <- lift (check_password_hash hash password) ;;
        if ok then
          id <- lift (dict_getitem (py_dict u) "_id") ;;
          ret (LoginOk (py_str id), 200)
        else ret (Message "Invalid credentials", 401)
    | None => ret (Message "Invalid credentials", 401)
    end).

(** [POST /template] *)
Definition create_template (current_user : string) (e : env) (data : json)
  : store -> response * store :=
  try_except (
    if negb (truthy data) then ret (Message "No input data provided", 400) else
    present <- lift (all_in ["template_name"; "subject"; "body"] data) ;;
    if negb present then ret (Message "Missing required fields", 400) else
    template_name <- lift (getitem data "template_name") ;;
    subject <- lift (getitem data "subject") ;;
    body <- lift (getitem data "body") ;;
    let template := [("user_id", VStr current_user); ("template_name", template_name);
                     ("subject", subject); ("body", body);
                     ("created_at", VDate (now e))] in
    inserted_id <- insert_one Templates (new_id e) template ;;
    ret (Created "Template created" (py_str (VOid inserted_id)), 201)).

(** [GET, PUT, DELETE /template/<template_id>]; [data] is read by PUT only. *)
Definition template_operations (m : method) (current_user : string) (e : env)
    (template_id : string) (data : json) : store -> response * store :=
  try_except (
    match ObjectId (generated e) (VStr template_id) with
    | Raise _ => ret (Message "Invalid template ID format", 400)
    | Ok template_obj_id =>
        let q := [IdEq template_obj_id; FieldEq "user_id" (VStr current_user)] in
        match m with
        | GET =>
            template <- find_one Templates q ;;
            match template with
            | None => ret (Message "Template not found", 404)
            | Some t =>
                d <- lift (stringify "_id" (py_dict t)) ;;
                d <- lift (isoformat_field "created_at" d) ;;
                d <- lift (isoformat_field "updated_at" d) ;;
                ret (Doc d, 200)
            end
        | PUT =>
            if negb (truthy data) then ret (Message "No input data provided", 400) else
            present <- lift (all_in ["template_name"; "subject"; "body"] data) ;;
            if negb present then ret (Message "Missing required fields", 400) else
            template_name <- lift (getitem data "template_name") ;;
            subject <- lift (getitem data "subject") ;;
            body <- lift (getitem data "body") ;;
            modified_count <-
              update_one Templates q
                [("template_name", template_name); ("subject", subject);
                 ("body", body); ("updated_at", VDate (now e))] ;;
            if modified_count =? 0 then ret (Message "Template not found", 404)
            else ret (Message "Template updated successfully", 200)
        | DELETE =>
            deleted_count <- delete_one Templates q ;;
            if deleted_count =? 0 then ret (Message "Template not found", 404)
            else ret (Message "Template deleted successfully", 200)
        end
    end).

(** [POST /task] *)
Definition create_task (current_user : string) (e : env) (data : json)
  : store -> response * store :=
  try_except (
    if negb (truthy data) then ret (Message "No input data provided", 400) else
    present <- lift (all_in ["assigned_user"; "task_date"; "task_time"; "task_msg"] data) ;;
    if negb present then ret (Message "Missing required fields", 400) else
    assigned <- lift (getitem data "assigned_user") ;;
    assigned_id <- lift (ObjectId (generated e) assigned) ;;
    assigned_user <- find_one Users [IdEq assigned_id] ;;
    match assigned_user with
    | None => ret (Message "Assigned user not found", 404)
    | Some _ =>
        assigned <- lift (getitem data "assigned_user") ;;
        task_date <- lift (getitem data "task_date") ;;
        task_time <- lift (getitem data "task_time") ;;
        task_msg <- lift (getitem data "task_msg") ;;
        let task := [("assigned_by", VStr current_user); ("assigned_user", assigned);
                     ("task_date", task_date); ("task_time", task_time);
                     ("task_msg", task_msg); ("is_completed", VInt 0);
                     ("created_at", VDate (now e))] in
        inserted_id <- insert_one Tasks (new_id e) task ;;
        ret (Created "Task created" (py_str (VOid inserted_id)), 201)
    end).

(** [GET, PUT, DELETE /task/<task_id>]; [data] is read by PUT only. *)
Definition task_operations (m : method) (current_user : string) (e : env)
    (task_id : string) (data : json) : store -> response * store :=
  try_except (
    match ObjectId (generated e) (VStr task_id) with
    | Raise _ => ret (Message "Invalid task ID format", 400)
    | Ok task_obj_id =>
        let q := [IdEq task_obj_id; FieldEq "assigned_user" (VStr current_user)] in
        match m with
        | GET =>
            task <- find_one Tasks q ;;
            match task with
            | None => ret (Message "Task not found", 404)
            | Some t =>
                d <- lift (stringify "_id" (py_dict t)) ;;
                d <- lift (stringify "assigned_by" d) ;;
                d <- lift (stringify "assigned_user" d) ;;
                assigned_by <- lift (dict_getitem d "assigned_by") ;;
                assigned_by_id <- lift (ObjectId (generated e) assigned_by) ;;
                assigned_by_user <- find_one Users [IdEq assigned_by_id] ;;
                assigned_user <- lift (dict_getitem d "assigned_user") ;;
                assigned_user_id <- lift (ObjectId (generated e) assigned_user) ;;
                assigned_to_user <- find_one Users [IdEq assigned_user_id] ;;
                by_first <- lift (found_getitem assigned_by_user "first_name") ;;
                by_last <- lift (found_getitem assigned_by_user "last_name") ;;
                let d := dict_set "assigned_by_name"
                           (VStr (py_str by_first ++ " " ++ py_str by_last)%string) d in
                to_first <- lift (found_getitem assigned_to_user "first_name") ;;
                to_last <- lift (found_getitem assigned_to_user "last_name") ;;
                let d := dict_set "assigned_to_name"
                           (VStr (py_str to_first ++ " " ++ py_str to_last)%string) d in
                d <- lift (isoformat_field "created_at" d) ;;
                ret (Doc d, 200)
            end
        | PUT =>
            if negb (truthy data) then ret (Message "No input data provided", 400) else
            present <- lift (all_in ["is_completed"] data) ;;
            if negb present then ret (Message "Missing required fields", 400) else
            task <- find_one Tasks q ;;
            match task with
            | None => ret (Message "Task not found", 404)
            | Some t =>
                is_completed <- lift (getitem data "is_completed") ;;
                modified_count <-
                  update_one Tasks q
                    [("is_completed", is_completed); ("updated_at", VDate (now e))] ;;
                if modified_count =? 0 then ret (Message "Task not found", 404) else
                assigned_by <- lift (dict_getitem (py_dict t) "assigned_by") ;;
                assigned_by_id <- lift (ObjectId (generated e) assigned_by) ;;
                assigned_by_user <- find_one Users [IdEq assigned_by_id] ;;
                assigned_user <- lift (dict_getitem (py_dict t) "assigned_user") ;;
                assigned_user_id <- lift (ObjectId (generated e) assigned_user) ;;
                assigned_to_user <- find_one Users [IdEq assigned_user_id] ;;
                first_name <- lift (found_getitem assigned_to_user "first_name") ;;
                last_name <- lift (found_getitem assigned_to_user "last_name") ;;
                ret (Updated "Task updated successfully"
                       ("Task completed by " ++ py_str first_name ++ " " ++ py_str last_name)%string,
                     200)
            end
        | DELETE =>
            task <- find_one Tasks q ;;
            match task with
            | None => ret (Message "Task not found", 404)
            | Some _ =>
                deleted_count <- delete_one Tasks q ;;
                if deleted_count =? 0 then ret (Message "Task not found", 404)
                else ret (Message "Task deleted successfully", 200)
            end
        end
    end).

(** [GET /team] *)
Definition get_users (current_user : string) (e : env) : store -> response * store :=
  try_except (
    current_id <- lift (ObjectId (generated e) (VStr current_user)) ;;
    users <- find Users [IdNe current_id] ;;
    users <- lift (map_result (stringify "_id") (map py_dict users)) ;;
    ret (Docs users, 200)).

(** The body of the loop of [get_all_templates]: [_id] in text, then the
    two dates in text when present. *)
Definition template_json (d : dict) : result dict :=
  match stringify "_id" d with
  | Ok d =>
      match isoformat_field "created_at" d with
      | Ok d => isoformat_field "updated_at" d
      | Raise e => Raise e
      end
  | Raise e => Raise e
  end.

(** [GET /template] *)
Definition get_all_templates (current_user : string) : store -> response * store :=
  try_except (
    templates <- find Templates [FieldEq "user_id" (VStr current_user)] ;;
    templates <- lift (map_result template_json (map py_dict templates)) ;;
    ret (Docs templates, 200)).

(** The body of the loop of [get_tasks], the same statements as in the GET
    branch of [task_operations]. *)
Definition task_json (e : env) (d : dict) : M dict :=
  d <- lift (stringify "_id" d) ;;
  d <- lift (stringify "assigned_by" d) ;;
  d <- lift (stringify "assigned_user" d) ;;
  assigned_by <- lift (dict_getitem d "assigned_by") ;;
  assigned_by_id <- lift (ObjectId (generated e) assigned_by) ;;
  assigned_by_user <- find_one Users [IdEq assigned_by_id] ;;
  assigned_user <- lift (dict_getitem d "assigned_user") ;;
  assigned_user_id <- lift (ObjectId (generated e) assigned_user) ;;
  assigned_to_user <- find_one Users [IdEq assigned_user_id] ;;
  by_first <- lift (found_getitem assigned_by_user "first_name") ;;
  by_last <- lift (found_getitem assigned_by_user "last_name") ;;
  let d := dict_set "assigned_by_name"
             (VStr (py_str by_first ++ " " ++ py_str by_last)%string) d in
  to_first <- lift (found_getitem assigned_to_user "first_name") ;;
  to_last <- lift (found_getitem assigned_to_user "last_name") ;;
  let d := dict_set "assigned_to_name"
             (VStr (py_str to_first ++ " " ++ py_str to_last)%string) d in
  d <- lift (isoformat_field "created_at" d) ;;
  ret d.

(** A [for] loop over a list whose body runs in the monad: it stops at the
    first exception. *)
Fixpoint map_M {A B} (f : A -> M B) (l : list A) : M (list B) :=
  match l with
  | [] => ret []
  | a :: l' =>
      b <- f a ;;
      bs <- map_M f l' ;;
      ret (b :: bs)
  end.

(** [GET /task] *)
Definition get_tasks (current_user : string) (e : env) : store -> response * store :=
  try_except (
    tasks <- find Tasks [FieldEq "assigned_user" (VStr current_user)] ;;
    tasks <- map_M (task_json e) (map py_dict tasks) ;;
    ret (Docs tasks, 200)).

End Model.

Arguments Ok {OID A} a.
Arguments Raise {OID A} e.

(** ** Stand-ins for running the handlers on concrete requests *)

Module Demo.

#[local] Existing Instance Hex24.instance.

(** This stand-in keeps the password readable after the second [$]: it is
    no hash, and serves only to evaluate the handlers. *)
Definition library : Library :=
  {| generate_password_hash := fun salt v =>
       match v with
       | VStr p => Ok ("demo$" ++ salt ++ "$" ++ p)%string
       | _ => Raise (AttributeError v "encode")
       end;
     check_password_hash := fun h v =>
       match h, v with
       | VStr h, VStr p =>
           Ok (String.eqb (substring (String.length h - String.length p)
                                     (String.length p) h) p)
       | VStr _, _ => Raise (AttributeError v "encode")
       | _, _ => Raise (AttributeError h "count")
       end;
     isoformat := fun t => ("T" ++ NilZero.string_of_int (Z.to_int t))%string;
     str_datetime := fun t => NilZero.string_of_int (Z.to_int t) |}.

#[local] Existing Instance library.

Definition alice_id : oid := Hex24.mk "aaaaaaaaaaaaaaaaaaaaaaaa".
Definition bob_id : oid := Hex24.mk "bbbbbbbbbbbbbbbbbbbbbbbb".
Definition template_id : oid := Hex24.mk "111111111111111111111111".
Definition task_id : oid := Hex24.mk "222222222222222222222222".

Definition alice : document :=
  {| doc_id := alice_id;
     doc_body := [("first_name", VStr "Alice"); ("last_name", VStr "Ames");
                  ("email", VStr "alice@example.org");
                  ("password", VStr "demo$s1$wonderland");
                  ("created_at", VDate 1000)] |}.

Definition bob : document :=
  {| doc_id := bob_id;
     doc_body := [("first_name", VStr "Bob"); ("last_name", VStr "Brown");
                  ("email", VStr "bob@example.org");
                  ("password", VStr "demo$s2$builder");
                  ("created_at", VDate 2000)] |}.

(** A template of Alice. *)
Definition template : document :=
  {| doc_id := template_id;
     doc_body := [("user_id", VStr "aaaaaaaaaaaaaaaaaaaaaaaa");
                  ("template_name", VStr "welcome"); ("subject", VStr "Hello");
                  ("body", VStr "Dear all"); ("created_at", VDate 3000)] |}.

(** A task Alice gave to Bob, already marked completed at time 5000. *)
Definition task : document :=
  {| doc_id := task_id;
     doc_body := [("assigned_by", VStr "aaaaaaaaaaaaaaaaaaaaaaaa");
                  ("assigned_user", VStr "bbbbbbbbbbbbbbbbbbbbbbbb");
                  ("task_date", VStr "2024-05-01"); ("task_time", VStr "09:00");
                  ("task_msg", VStr "send report"); ("is_completed", VInt 1);
                  ("created_at", VDate 4000); ("updated_at", VDate 5000)] |}.

Definition db : store :=
  {| users := [alice; bob]; templates := [template]; tasks := [task] |}.

Definition request_env : env :=
  {| now := 6000;
     new_id := Hex24.mk "333333333333333333333333";
     generated := Hex24.mk "444444444444444444444444";
     salt := "s3" |}.

End Demo.

(** The same stand-ins over identifiers read in either case. *)
Module DemoAnyCase.

#[local] Existing Instance HexAnyCase.instance.

Definition library : Library :=
  {| generate_password_hash := fun salt v =>
       match v with
       | VStr p => Ok ("demo$" ++ salt ++ "$" ++ p)%string
       | _ => Raise (AttributeError v "encode")
       end;
     check_password_hash := fun h v =>
       match h, v with
       | VStr h, VStr p =>
           Ok (String.eqb (substring (String.length h - String.length p)
                                     (String.length p) h) p)
       | VStr _, _ => Raise (AttributeError v "encode")
       | _, _ => Raise (AttributeError h "count")
       end;
     isoformat := fun t => ("T" ++ NilZero.string_of_int (Z.to_int t))%string;
     str_datetime := fun t => NilZero.string_of_int (Z.to_int t) |}.

Definition bob : document :=
  {| doc_id := Hex24.mk "bbbbbbbbbbbbbbbbbbbbbbbb";
     doc_body := [("first_name", VStr "Bob"); ("last_name", VStr "Brown");
                  ("email", VStr "bob@example.org");
                  ("password", VStr "demo$s2$builder");
                  ("created_at", VDate 2000)] |}.

Definition db : store := {| users := [bob]; templates := []; tasks := [] |}.

Definition request_env : env :=
  {| now := 6000;
     new_id := Hex24.mk "333333333333333333333333";
     generated := Hex24.mk "444444444444444444444444";
     salt := "s3" |}.

(** A task for Bob, his identifier written in capitals. *)
Definition task_in_capitals : dict :=
  [("assigned_user", VStr "BBBBBBBBBBBBBBBBBBBBBBBB"); ("task_date", VStr "2024-06-01");
   ("task_time", VStr "10:00"); ("task_msg", VStr "call back")].

End DemoAnyCase.

(** ** Notions used to state the properties *)

Section Notions.

Context {OID : ObjectIdType} {LIB : Library}.

(** A stored user as [/team] lists it: the document with [_id] turned into
    its text. *)
Definition team_entry (u : document) : dict :=
  ("_id", VStr (oid_str (doc_id u))) :: doc_body u.

(** The stored users other than the one identified by [o]. *)
Definition others (o : oid) (l : list document) : list document :=
  filter (fun u => negb (oid_eqb (doc_id u) o)) l.

(** The first stored user whose [email] is the text [em], as
    [find_one({'email': em})] picks it. *)
Definition email_is (em : string) (u : document) : bool :=
  match lookup "email" (doc_body u) with
  | Some v => value_eqb v (VStr em)
  | None => false
  end.

Definition user_with_email (em : string) (l : list document) : option document :=
  List.find (email_is em) l.

(** The user document [register] builds. *)
Definition new_user (e : env) (first_name last_name email : value) (hash : string) : document :=
  {| doc_id := new_id e;
     doc_body := [("first_name", first_name); ("last_name", last_name);
                  ("email", email); ("password", VStr hash);
                  ("created_at", VDate (now e))] |}.

(** A JSON value other than [null] that [ObjectId] rejects: a text that is
    not the text of an identifier, a boolean or a number. *)
Definition invalid_object_id (v : value) : Prop :=
  match v with
  | VStr t => oid_of_str t = None
  | VBool _ | VInt _ | VDate _ => True
  | VNone | VOid _ => False
  end.

(** The exception [ObjectId] raises on such a value. *)
Definition object_id_error (v : value) : exc :=
  match v with
  | VStr _ => InvalidId v
  | _ => TypeError "ObjectId" v
  end.

(** [s] with one more task. *)
Definition with_task (s : store) (t : document) : store :=
  {| users := users s; templates := templates s; tasks := tasks s ++ [t] |}.

(** [s] with one more user. *)
Definition with_user (s : store) (u : document) : store :=
  {| users := users s ++ [u]; templates := templates s; tasks := tasks s |}.

(** The field [k] of [t], when present, holds a [datetime]. *)
Definition dated (k : string) (t : document) : Prop :=
  match lookup k (doc_body t) with
  | Some (VDate _) | None => True
  | Some _ => False
  end.

(** A stored value as a response shows it once [isoformat] was applied. *)
Definition iso_view (v : value) : value :=
  match v with
  | VDate t => VStr (isoformat t)
  | _ => v
  end.

(** A field of a template as [GET] shows it: the two dates in text. *)
Definition shown_field (k : string) (v : value) : value :=
  if String.eqb k "created_at" || String.eqb k "updated_at" then iso_view v else v.

(** The [$set] documents of the two update handlers. *)
Definition template_update (e : env) (template_name subject body : value) : dict :=
  [("template_name", template_name); ("subject", subject); ("body", body);
   ("updated_at", VDate (now e))].

Definition task_update (e : env) (is_completed : value) : dict :=
  [("is_completed", is_completed); ("updated_at", VDate (now e))].

(** [s] with other templates, other tasks. *)
Definition with_templates (s : store) (l : list document) : store :=
  {| users := users s; templates := l; tasks := tasks s |}.

Definition with_tasks (s : store) (l : list document) : store :=
  {| users := users s; templates := templates s; tasks := l |}.

(** *** Notions for the properties of whole handlers *)

(** Whatever it returns or raises, [m] takes a store to an [R]-related one. *)
Definition respects (R : store -> store -> Prop) {A} (m : M A) : Prop :=
  forall s, R s (snd (m s)).

Definition unchanged (s s' : store) : Prop := s' = s.

(** [_id] is unique within each collection. *)
Definition unique_ids (s : store) : Prop :=
  NoDup (map doc_id (users s)) /\ NoDup (map doc_id (templates s)) /\
  NoDup (map doc_id (tasks s)).

Definition keeps_unique_ids (s s' : store) : Prop := unique_ids s -> unique_ids s'.

(** Every document of [l'] is a document of [l] with the same [_id] and
    the same fields outside [keys]. *)
Definition descends (keys : list string) (l l' : list document) : Prop :=
  forall t', In t' l' ->
    exists t, In t l /\ doc_id t = doc_id t' /\
      forall k, ~ In k keys -> lookup k (doc_body t') = lookup k (doc_body t).

(** Only collection [c] may differ, and there only by removals and by
    rewriting fields among [keys]. *)
Definition touches (c : collection) (keys : list string) (s s' : store) : Prop :=
  (forall c', c' <> c -> get_coll c' s' = get_coll c' s) /\
  descends keys (get_coll c s) (get_coll c s').

(** [s] with one more template. *)
Definition with_template (s : store) (t : document) : store :=
  {| users := users s; templates := templates s ++ [t]; tasks := tasks s |}.

(** The documents [create_template] and [create_task] build. *)
Definition new_template (cu : string) (e : env) (template_name subject body : value) : document :=
  {| doc_id := new_id e;
     doc_body := [("user_id", VStr cu); ("template_name", template_name);
                  ("subject", subject); ("body", body);
                  ("created_at", VDate (now e))] |}.

Definition new_task (cu : string) (e : env)
    (assigned_user task_date task_time task_msg : value) : document :=
  {| doc_id := new_id e;
     doc_body := [("assigned_by", VStr cu); ("assigned_user", assigned_user);
                  ("task_date", task_date); ("task_time", task_time);
                  ("task_msg", task_msg); ("is_completed", VInt 0);
                  ("created_at", VDate (now e))] |}.

(** The field [k] of [t] is the text [x]. *)
Definition field_is (k x : string) (t : document) : bool :=
  match lookup k (doc_body t) with
  | Some v => value_eqb v (VStr x)
  | None => false
  end.

(** [name] is the first and the last name of [u], as the f-strings of the
    task handlers join them. *)
Definition named (u : document) (name : string) : Prop :=
  exists f l, lookup "first_name" (doc_body u) = Some f /\
              lookup "last_name" (doc_body u) = Some l /\
              name = (py_str f ++ " " ++ py_str l)%string.

(** A field of a task as a response shows it: [created_at] in text. *)
Definition shown_task_field (k : string) (v : value) : value :=
  if String.eqb k "created_at" then iso_view v else v.

(** [view] shows the template [t]. *)
Definition shown_template (t : document) (view : dict) : Prop :=
  lookup "_id" view = Some (VStr (oid_str (doc_id t))) /\
  forall k, k <> "_id" ->
    lookup k view = option_map (shown_field k) (lookup k (doc_body t)).

(** [view] shows the task [t] with the two names. *)
Definition shown_task (t : document) (by_name to_name : string) (view : dict) : Prop :=
  lookup "_id" view = Some (VStr (oid_str (doc_id t))) /\
  lookup "assigned_by_name" view = Some (VStr by_name) /\
  lookup "assigned_to_name" view = Some (VStr to_name) /\
  forall k, k <> "_id" -> k <> "assigned_by_name" -> k <> "assigned_to_name" ->
    lookup k view = option_map (shown_task_field k) (lookup k (doc_body t)).

(** The stored user [find_one({'email': em})] returns, for whatever value
    the request carries as email. *)
Definition user_matching_email (em : value) (l : list document) : option document :=
  List.find (fun u => field_matches (lookup "email" (doc_body u)) em) l.

(** The update [$set]s what the template already holds: the three fields
    sent and the time of the request are the stored ones. *)
Definition writes_nothing (e : env) (template_name subject body : value)
    (t : document) : Prop :=
  lookup "template_name" (doc_body t) = Some template_name /\
  lookup "subject" (doc_body t) = Some subject /\
  lookup "body" (doc_body t) = Some body /\
  lookup "updated_at" (doc_body t) = Some (VDate (now e)).

End Notions.

(** * Properties *)

Section Properties.

Context {OID : ObjectIdType} {LIB : Library}.

(** ** Equality tests *)

Lemma oid_eqb_refl (o : oid) : oid_eqb o o = true.
Proof. now apply oid_eqb_eq. Qed.

Lemma oid_eqb_neq (a b : oid) : a <> b -> oid_eqb a b = false.
Proof.
  intros Hab. destruct (oid_eqb a b) eqn:E; [|reflexivity].
  apply oid_eqb_eq in E. contradiction.
Qed.

Lemma oid_str_inj (a b : oid) : oid_str a = oid_str b -> a = b.
Proof.
  intros H. pose proof (oid_of_str_str a) as Ha.
  rewrite H, oid_of_str_str in Ha. now inversion Ha.
Qed.

Lemma value_eqb_eq (a b : value) : value_eqb a b = true <-> a = b.
Proof.
  destruct a, b; simpl; split; intros H;
    try discriminate; try reflexivity.
  - apply Bool.eqb_prop in H. now subst.
  - inversion H. apply Bool.eqb_reflx.
  - apply Z.eqb_eq in H. now subst.
  - inversion H. apply Z.eqb_refl.
  - apply String.eqb_eq in H. now subst.
  - inversion H. apply String.eqb_refl.
  - apply oid_eqb_eq in H. now subst.
  - inversion H. apply oid_eqb_refl.
  - apply Z.eqb_eq in H. now subst.
  - inversion H. apply Z.eqb_refl.
Qed.

Lemma dict_eqb_eq (a b : dict) : dict_eqb a b = true -> a = b.
Proof.
  revert b. induction a as [|[k v] a IH]; intros [|[k' v'] b]; simpl;
    try discriminate; [reflexivity|].
  intros H. apply andb_prop in H as [H Hd]. apply andb_prop in H as [Hk Hv].
  apply String.eqb_eq in Hk. apply value_eqb_eq in Hv.
  subst. f_equal. now apply IH.
Qed.

Lemma doc_eqb_eq (a b : document) : doc_eqb a b = true -> a = b.
Proof.
  unfold doc_eqb. intros H. apply andb_prop in H as [Hi Hb].
  apply oid_eqb_eq in Hi. apply dict_eqb_eq in Hb.
  destruct a, b; simpl in *; now subst.
Qed.

(** ** Dictionaries *)

Lemma lookup_dict_set_eq (k : string) (v : value) (d : dict) :
  lookup k (dict_set k v d) = Some v.
Proof.
  induction d as [|[k' v'] d IH]; simpl.
  - now rewrite String.eqb_refl.
  - destruct (String.eqb k k') eqn:E; simpl; rewrite E; [reflexivity | exact IH].
Qed.

Lemma lookup_dict_set_neq (k k' : string) (v : value) (d : dict) :
  k' <> k -> lookup k' (dict_set k v d) = lookup k' d.
Proof.
  intros Hk. induction d as [|[k0 v0] d IH]; simpl.
  - apply String.eqb_neq in Hk. now rewrite Hk.
  - destruct (String.eqb k k0) eqn:E; simpl.
    + apply String.eqb_eq in E. subst k0.
      apply String.eqb_neq in Hk. now rewrite Hk.
    + now rewrite IH.
Qed.

Lemma lookup_truthy (k : string) (v : value) (d : dict) :
  lookup k d = Some v -> truthy (JObject d) = true.
Proof. destruct d; simpl; [discriminate | reflexivity]. Qed.

(** ** Collections *)

Lemma find_all_false {A} (f : A -> bool) (l : list A) :
  (forall x, In x l -> f x = false) -> List.find f l = None.
Proof.
  induction l as [|a l IH]; simpl; intros H; [reflexivity|].
  rewrite (H a (or_introl eq_refl)). apply IH. intros x Hx. apply H. now right.
Qed.

Lemma find_first_split {A} (f : A -> bool) (l : list A) (t : A) :
  List.find f l = Some t ->
  exists l1 l2, l = l1 ++ t :: l2 /\ (forall x, In x l1 -> f x = false) /\ f t = true.
Proof.
  induction l as [|a l IH]; simpl; [discriminate|].
  destruct (f a) eqn:E.
  - intros [= ->]. exists [], l. repeat split; [|exact E]. intros x [].
  - intros H. destruct (IH H) as (l1 & l2 & -> & Hl1 & Ht).
    exists (a :: l1), l2. repeat split; [|exact Ht].
    intros x [<-|Hx]; [exact E | now apply Hl1].
Qed.

Lemma update_first_nomatch (q : query) (upd : dict) (l : list document) :
  (forall x, In x l -> matches q x = false) -> update_first q upd l = (l, 0).
Proof.
  induction l as [|a l IH]; simpl; intros H; [reflexivity|].
  rewrite (H a (or_introl eq_refl)), IH; [reflexivity|].
  intros x Hx. apply H. now right.
Qed.

Lemma delete_first_nomatch (q : query) (l : list document) :
  (forall x, In x l -> matches q x = false) -> delete_first q l = (l, 0).
Proof.
  induction l as [|a l IH]; simpl; intros H; [reflexivity|].
  rewrite (H a (or_introl eq_refl)), IH; [reflexivity|].
  intros x Hx. apply H. now right.
Qed.

Lemma update_first_split (q : query) (upd : dict) (l1 l2 : list document) (t : document) :
  (forall x, In x l1 -> matches q x = false) -> matches q t = true ->
  update_first q upd (l1 ++ t :: l2) =
    (l1 ++ set_fields upd t :: l2, if doc_eqb t (set_fields upd t) then 0 else 1).
Proof.
  intros Hl1 Ht. induction l1 as [|a l1 IH]; simpl.
  - now rewrite Ht.
  - rewrite (Hl1 a (or_introl eq_refl)), IH; [reflexivity|].
    intros x Hx. apply Hl1. now right.
Qed.

Lemma delete_first_split (q : query) (l1 l2 : list document) (t : document) :
  (forall x, In x l1 -> matches q x = false) -> matches q t = true ->
  delete_first q (l1 ++ t :: l2) = (l1 ++ l2, 1).
Proof.
  intros Hl1 Ht. induction l1 as [|a l1 IH]; simpl.
  - now rewrite Ht.
  - rewrite (Hl1 a (or_introl eq_refl)), IH; [reflexivity|].
    intros x Hx. apply Hl1. now right.
Qed.

(** [_id] is unique within a collection. *)
Lemma unique_id (l : list document) (x y : document) :
  NoDup (map doc_id l) -> In x l -> In y l -> doc_id x = doc_id y -> x = y.
Proof.
  induction l as [|a l IH]; simpl; [intros _ []|].
  intros Hnd Hx Hy Hid. inversion Hnd as [|? ? Hnotin Hnd']; subst.
  destruct Hx as [<-|Hx], Hy as [<-|Hy]; auto.
  - exfalso. apply Hnotin. rewrite Hid. now apply in_map.
  - exfalso. apply Hnotin. rewrite <- Hid. now apply in_map.
Qed.

(** ** [GET /team] *)

Lemma map_result_stringify (l : list document) :
  map_result (stringify "_id") (map py_dict l) = Ok (map team_entry l).
Proof.
  induction l as [|u l IH]; simpl; [reflexivity|].
  now rewrite IH.
Qed.

Lemma get_users_run (o : oid) (e : env) (s : store) :
  get_users (oid_str o) e s = ((Docs (map team_entry (others o (users s))), 200), s).
Proof.
  unfold get_users, try_except, bind, lift, ret, find; simpl.
  rewrite oid_of_str_str; simpl.
  rewrite (filter_ext (matches [IdNe o]) (fun u => negb (oid_eqb (doc_id u) o))).
  - fold (others o (users s)). now rewrite map_result_stringify.
  - intros u. unfold matches; simpl. apply andb_true_r.
Qed.

Lemma team_entry_inj (u u' : document) : team_entry u = team_entry u' -> u = u'.
Proof.
  destruct u as [i b], u' as [i' b']; unfold team_entry; simpl.
  intros H. injection H as Hid Hb.
  apply oid_str_inj in Hid. now subst.
Qed.

Lemma in_others (o : oid) (l : list document) (u : document) :
  In u (others o l) <-> In u l /\ doc_id u <> o.
Proof.
  unfold others. rewrite filter_In. split; intros [Hin H]; split; auto.
  - intros Heq. rewrite Heq, oid_eqb_refl in H. discriminate.
  - now rewrite oid_eqb_neq.
Qed.

(** C8. For a caller authenticated as the user with identifier [o] (the
    identity in the token is [str(o)]), [GET /team] answers 200 with the
    stored users whose [_id] differs from [o], in stored order and each
    once per stored document, and no entry carries the caller's own id. *)
Theorem get_users_lists_exactly_the_others (o : oid) (e : env) (s : store) :
  exists team,
    get_users (oid_str o) e s = ((Docs team, 200), s) /\
    team = map team_entry (others o (users s)) /\
    (forall u, In (team_entry u) team <-> In u (users s) /\ doc_id u <> o) /\
    (forall d, In d team -> lookup "_id" d <> Some (VStr (oid_str o))).
Proof.
  exists (map team_entry (others o (users s))).
  split; [apply get_users_run|]. split; [reflexivity|]. split.
  - intros u. rewrite <- in_others. split.
    + intros H. apply in_map_iff in H as (u' & Heq & Hin).
      apply team_entry_inj in Heq. now subst.
    + apply in_map.
  - intros d H. apply in_map_iff in H as (u & <- & Hin).
    apply in_others in Hin as [_ Hne]. simpl.
    intros [= Heq]. apply oid_str_inj in Heq. contradiction.
Qed.

(** C9. Each entry of the list [GET /team] returns is the stored user
    document with [_id] replaced by its text and every other field as
    stored, the email and the password hash among them. *)
Theorem get_users_entries_are_whole_documents (o : oid) (e : env) (s : store) :
  exists team,
    get_users (oid_str o) e s = ((Docs team, 200), s) /\
    Forall2 (fun u d =>
               d = ("_id", VStr (oid_str (doc_id u))) :: doc_body u /\
               lookup "email" d = lookup "email" (doc_body u) /\
               lookup "password" d = lookup "password" (doc_body u) /\
               forall k, k <> "_id" -> lookup k d = lookup k (doc_body u))
            (others o (users s)) team.
Proof.
  exists (map team_entry (others o (users s))).
  split; [apply get_users_run|].
  induction (others o (users s)) as [|u l IH]; simpl; constructor; [|exact IH].
  repeat split; intros k Hk. unfold team_entry; simpl.
  apply String.eqb_neq in Hk. now rewrite Hk.
Qed.

(** ** [POST /login] and [POST /register] *)

Lemma find_ext {A} (f g : A -> bool) (l : list A) :
  (forall x, f x = g x) -> List.find f l = List.find g l.
Proof.
  intros H. induction l as [|a l IH]; simpl; [reflexivity|].
  now rewrite H, IH.
Qed.

Lemma find_exists {A} (f : A -> bool) (l : list A) (x : A) :
  In x l -> f x = true -> exists y, List.find f l = Some y.
Proof.
  induction l as [|a l IH]; simpl; [intros []|].
  intros [->|Hin] Hx.
  - rewrite Hx. now exists x.
  - destruct (f a); [now exists a | now apply IH].
Qed.

Lemma matches_email (em : string) (u : document) :
  matches [FieldEq "email" (VStr em)] u = email_is em u.
Proof.
  unfold matches, email_is, cond_holds, field_matches; simpl.
  rewrite andb_true_r. now destruct (lookup "email" (doc_body u)).
Qed.

Lemma email_is_true (em : string) (u : document) :
  email_is em u = true <-> lookup "email" (doc_body u) = Some (VStr em).
Proof.
  unfold email_is. destruct (lookup "email" (doc_body u)) as [v|].
  - rewrite value_eqb_eq. split; congruence.
  - split; discriminate.
Qed.

Lemma find_one_email (em : string) (s : store) :
  find_one Users [FieldEq "email" (VStr em)] s = (Ok (user_with_email em (users s)), s).
Proof.
  unfold find_one, user_with_email; simpl.
  now rewrite (find_ext _ _ _ (matches_email em)).
Qed.

(** No stored user has the email exactly when the lookup finds nothing. *)
Lemma user_with_email_none (em : string) (l : list document) :
  user_with_email em l = None <->
  forall u, In u l -> lookup "email" (doc_body u) <> Some (VStr em).
Proof.
  unfold user_with_email. split.
  - intros H u Hin Hu. apply email_is_true in Hu.
    now rewrite (find_none _ _ H u Hin) in Hu.
  - intros H. apply find_all_false. intros u Hin.
    destruct (email_is em u) eqn:E; [|reflexivity].
    apply email_is_true in E. now apply H in E.
Qed.

Lemma login_unknown (s : store) (d : dict) (em : string) (pw : value) :
  lookup "email" d = Some (VStr em) ->
  lookup "password" d = Some pw ->
  user_with_email em (users s) = None ->
  login (JObject d) s = ((Message "Invalid credentials", 401), s).
Proof.
  intros Hem Hpw Hn.
  unfold login, try_except, bind, lift, ret.
  rewrite (lookup_truthy _ _ _ Hem). cbn [negb all_in py_in getitem].
  rewrite Hem, Hpw. cbn [negb].
  now rewrite find_one_email, Hn.
Qed.

Lemma login_known (s : store) (d : dict) (em : string) (pw : value)
    (u : document) (h : value) (b : bool) :
  lookup "email" d = Some (VStr em) ->
  lookup "password" d = Some pw ->
  user_with_email em (users s) = Some u ->
  lookup "password" (doc_body u) = Some h ->
  check_password_hash h pw = Ok b ->
  login (JObject d) s =
    (if b then (LoginOk (oid_str (doc_id u)), 200)
     else (Message "Invalid credentials", 401), s).
Proof.
  intros Hem Hpw Hu Hh Hck.
  unfold login, try_except, bind, lift, ret.
  rewrite (lookup_truthy _ _ _ Hem). cbn [negb all_in py_in getitem].
  rewrite Hem, Hpw. cbn [negb].
  rewrite find_one_email, Hu.
  unfold dict_getitem; simpl. rewrite Hh, Hck. now destruct b.
Qed.

Lemma find_one_email_value (em : value) (s : store) :
  find_one Users [FieldEq "email" em] s =
    (if bson_ok em then Ok (user_matching_email em (users s)) else Raise OverflowError, s).
Proof.
  unfold find_one, user_matching_email. cbn [query_ok forallb get_coll].
  rewrite andb_true_r. destruct (bson_ok em); [|reflexivity].
  f_equal. f_equal. apply find_ext. intros u.
  unfold matches; simpl. apply andb_true_r.
Qed.

Lemma user_matching_email_text (em : string) (l : list document) :
  user_matching_email (VStr em) l = user_with_email em l.
Proof.
  unfold user_matching_email, user_with_email. apply find_ext. intros u.
  unfold email_is, field_matches. now destruct (lookup "email" (doc_body u)).
Qed.

Lemma login_email_unencodable (s : store) (d : dict) (em pw : value) :
  lookup "email" d = Some em -> lookup "password" d = Some pw ->
  bson_ok em = false ->
  login (JObject d) s = ((ErrorMessage OverflowError, 500), s).
Proof.
  intros Hem Hpw Hbad.
  unfold login, try_except, bind, lift, ret.
  rewrite (lookup_truthy _ _ _ Hem). cbn [negb all_in py_in getitem].
  rewrite Hem, Hpw. cbn [negb].
  now rewrite find_one_email_value, Hbad.
Qed.

Lemma login_no_match (s : store) (d : dict) (em pw : value) :
  lookup "email" d = Some em -> lookup "password" d = Some pw ->
  bson_ok em = true -> user_matching_email em (users s) = None ->
  login (JObject d) s = ((Message "Invalid credentials", 401), s).
Proof.
  intros Hem Hpw Hok Hnone.
  unfold login, try_except, bind, lift, ret.
  rewrite (lookup_truthy _ _ _ Hem). cbn [negb all_in py_in getitem].
  rewrite Hem, Hpw. cbn [negb].
  now rewrite find_one_email_value, Hok, Hnone.
Qed.

Lemma login_match (s : store) (d : dict) (em pw : value) (u : document) :
  lookup "email" d = Some em -> lookup "password" d = Some pw ->
  bson_ok em = true -> user_matching_email em (users s) = Some u ->
  login (JObject d) s =
    (match lookup "password" (doc_body u) with
     | None => (ErrorMessage (KeyError "password"), 500)
     | Some h =>
         match check_password_hash h pw with
         | Ok true => (LoginOk (oid_str (doc_id u)), 200)
         | Ok false => (Message "Invalid credentials", 401)
         | Raise ex => (ErrorMessage ex, 500)
         end
     end, s).
Proof.
  intros Hem Hpw Hok Hu.
  unfold login, try_except, bind, lift, ret.
  rewrite (lookup_truthy _ _ _ Hem). cbn [negb all_in py_in getitem].
  rewrite Hem, Hpw. cbn [negb].
  rewrite find_one_email_value, Hok, Hu.
  unfold dict_getitem; simpl.
  destruct (lookup "password" (doc_body u)) as [h|]; [|reflexivity].
  now destruct (check_password_hash h pw) as [[|]|ex].
Qed.

(** C3 (amended). A login request carrying both fields is answered 401
    with the message [Invalid credentials] when no stored user matches the
    email and also when [check_password_hash] returns [False] on the hash
    stored for the user found; it is answered 200 with a token created for
    the text of that user's [_id] when the check returns [True].  Neither
    holds when a library call raises: a check that raises (as on a password
    that is not a text), a stored user without [password], or an email the
    driver cannot encode is answered 500 with the error, and no token is
    issued. *)
Theorem login_outcomes (s : store) (d : dict) (em pw : value) :
  lookup "email" d = Some em ->
  lookup "password" d = Some pw ->
  (bson_ok em = false ->
     login (JObject d) s = ((ErrorMessage OverflowError, 500), s)) /\
  (bson_ok em = true ->
     (user_matching_email em (users s) = None ->
        login (JObject d) s = ((Message "Invalid credentials", 401), s)) /\
     (forall u, user_matching_email em (users s) = Some u ->
        (lookup "password" (doc_body u) = None ->
           login (JObject d) s = ((ErrorMessage (KeyError "password"), 500), s)) /\
        (forall h, lookup "password" (doc_body u) = Some h ->
           (check_password_hash h pw = Ok false ->
              login (JObject d) s = ((Message "Invalid credentials", 401), s)) /\
           (check_password_hash h pw = Ok true ->
              login (JObject d) s = ((LoginOk (oid_str (doc_id u)), 200), s)) /\
           (forall ex, check_password_hash h pw = Raise ex ->
              login (JObject d) s = ((ErrorMessage ex, 500), s))))) /\
  (forall t, em = VStr t ->
     (user_matching_email em (users s) = None <->
      forall u, In u (users s) -> lookup "email" (doc_body u) <> Some (VStr t))).
Proof.
  intros Hem Hpw. split; [|split].
  - now apply (login_email_unencodable s d em pw).
  - intros Hok. split.
    + now apply (login_no_match s d em pw).
    + intros u Hu.
      pose proof (login_match s d em pw u Hem Hpw Hok Hu) as Hrun.
      split.
      * intros Hnone. now rewrite Hnone in Hrun.
      * intros h Hh. rewrite Hh in Hrun.
        split; [|split].
        -- intros Hck. now rewrite Hck in Hrun.
        -- intros Hck. now rewrite Hck in Hrun.
        -- intros ex Hck. now rewrite Hck in Hrun.
  - intros t ->. rewrite user_matching_email_text. apply user_with_email_none.
Qed.

Lemma existsb_oid_false (o : oid) (l : list oid) :
  ~ In o l -> existsb (oid_eqb o) l = false.
Proof.
  induction l as [|a l IH]; simpl; [reflexivity|].
  intros H. rewrite IH by tauto. rewrite oid_eqb_neq; [reflexivity|].
  intros ->. apply H. now left.
Qed.

Lemma register_duplicate (e : env) (s : store) (d : dict)
    (fn ln pw : value) (em : string) (u : document) :
  lookup "first_name" d = Some fn -> lookup "last_name" d = Some ln ->
  lookup "email" d = Some (VStr em) -> lookup "password" d = Some pw ->
  In u (users s) -> lookup "email" (doc_body u) = Some (VStr em) ->
  register e (JObject d) s = ((Message "Email already registered", 400), s).
Proof.
  intros Hfn Hln Hem Hpw Hin Hu.
  apply email_is_true in Hu.
  destruct (find_exists _ _ _ Hin Hu) as [u' Hfind].
  unfold register, try_except, bind, lift, ret.
  rewrite (lookup_truthy _ _ _ Hem). cbn [negb all_in py_in getitem].
  rewrite Hfn, Hln, Hem, Hpw. cbn [negb].
  rewrite find_one_email. unfold user_with_email. now rewrite Hfind.
Qed.

Lemma register_fresh (e : env) (s : store) (d : dict)
    (fn ln pw : value) (em h : string) :
  lookup "first_name" d = Some fn -> lookup "last_name" d = Some ln ->
  lookup "email" d = Some (VStr em) -> lookup "password" d = Some pw ->
  (forall u, In u (users s) -> lookup "email" (doc_body u) <> Some (VStr em)) ->
  generate_password_hash (salt e) pw = Ok h ->
  bson_ok fn = true -> bson_ok ln = true ->
  ~ In (new_id e) (map doc_id (users s)) ->
  register e (JObject d) s =
    ((Message "User registered successfully", 201),
     with_user s (new_user e fn ln (VStr em) h)).
Proof.
  intros Hfn Hln Hem Hpw Hnew Hh Hbf Hbl Hid.
  apply user_with_email_none in Hnew.
  unfold register, try_except, bind, lift, ret.
  rewrite (lookup_truthy _ _ _ Hem). cbn [negb all_in py_in getitem].
  rewrite Hfn, Hln, Hem, Hpw. cbn [negb].
  rewrite find_one_email, Hnew, Hh.
  unfold insert_one, dict_ok; simpl forallb.
  rewrite Hbf, Hbl. cbn [andb negb bson_ok get_coll].
  now rewrite (existsb_oid_false _ _ Hid).
Qed.







(** ** [POST /task] *)

Lemma find_one_id_none (c : collection) (o : oid) (s : store) :
  (forall u, In u (get_coll c s) -> doc_id u <> o) ->
  find_one c [IdEq o] s = (Ok None, s).
Proof.
  intros H. unfold find_one; simpl. rewrite find_all_false; [reflexivity|].
  intros u Hu. unfold matches; simpl.
  rewrite oid_eqb_neq; [reflexivity|]. now apply H.
Qed.

Lemma create_task_unknown_assignee (cu : string) (e : env) (s : store) (d : dict)
    (au td tt tm : value) (o : oid) :
  lookup "assigned_user" d = Some au -> lookup "task_date" d = Some td ->
  lookup "task_time" d = Some tt -> lookup "task_msg" d = Some tm ->
  ObjectId (generated e) au = Ok o ->
  (forall u, In u (users s) -> doc_id u <> o) ->
  create_task cu e (JObject d) s = ((Message "Assigned user not found", 404), s).
Proof.
  intros Hau Htd Htt Htm Ho Hnone.
  unfold create_task, try_except, bind, lift, ret.
  rewrite (lookup_truthy _ _ _ Hau). cbn [negb all_in py_in getitem].
  rewrite Hau, Htd, Htt, Htm. cbn [negb]. rewrite Ho.
  now rewrite (find_one_id_none Users o s Hnone).
Qed.

Lemma create_task_object_id_raises (cu : string) (e : env) (s : store) (d : dict)
    (au td tt tm : value) (ex : exc) :
  lookup "assigned_user" d = Some au -> lookup "task_date" d = Some td ->
  lookup "task_time" d = Some tt -> lookup "task_msg" d = Some tm ->
  ObjectId (generated e) au = Raise ex ->
  create_task cu e (JObject d) s = ((ErrorMessage ex, 500), s).
Proof.
  intros Hau Htd Htt Htm Hex.
  unfold create_task, try_except, bind, lift, ret.
  rewrite (lookup_truthy _ _ _ Hau). cbn [negb all_in py_in getitem].
  rewrite Hau, Htd, Htt, Htm. cbn [negb]. now rewrite Hex.
Qed.

Lemma ObjectId_invalid (g : oid) (v : value) :
  invalid_object_id v -> ObjectId g v = Raise (object_id_error v).
Proof.
  destruct v; simpl; try tauto. now intros ->.
Qed.

(** C4. A task creation carrying the four fields, whose [assigned_user]
    the [ObjectId] constructor turns into an identifier that no stored user
    has, is answered 404 [Assigned user not found] and leaves the store,
    the tasks collection included, as it was. *)
Theorem create_task_unknown_assignee_404 (cu : string) (e : env) (s : store)
    (d : dict) (au td tt tm : value) (o : oid) :
  lookup "assigned_user" d = Some au -> lookup "task_date" d = Some td ->
  lookup "task_time" d = Some tt -> lookup "task_msg" d = Some tm ->
  ObjectId (generated e) au = Ok o ->
  (forall u, In u (users s) -> doc_id u <> o) ->
  fst (create_task cu e (JObject d) s) = (Message "Assigned user not found", 404) /\
  snd (create_task cu e (JObject d) s) = s.
Proof.
  intros Hau Htd Htt Htm Ho Hnone.
  now rewrite (create_task_unknown_assignee cu e s d au td tt tm o).
Qed.

Ltac break_inner H :=
  match type of H with
  | context [match ?x with _ => _ end] =>
      lazymatch x with
      | context [match _ with _ => _ end] => fail
      | _ => destruct x eqn:?
      end
  end.

(** C7. Whatever the request body holds, a task creation answered 201 has
    added exactly one task document, with [is_completed] equal to 0 and
    [assigned_by] equal to the caller's identity. *)
Theorem create_task_initial_fields (cu : string) (e : env) (data : json)
    (s s' : store) (b : body) :
  create_task cu e data s = ((b, 201), s') ->
  exists t,
    s' = with_task s t /\
    doc_id t = new_id e /\
    lookup "is_completed" (doc_body t) = Some (VInt 0) /\
    lookup "assigned_by" (doc_body t) = Some (VStr cu).
Proof.
  intros H.
  unfold create_task, try_except, bind, lift, ret, find_one, insert_one in H.
  repeat (break_inner H; cbn beta iota in H; try discriminate).
  injection H as _ Hs. subst s'.
  eexists. split; [reflexivity|]. now repeat split.
Qed.

(** C10 (amended). A task creation carrying the four fields whose
    [assigned_user] is a text that is not the text of an identifier, a
    boolean or a number is answered 500 with the message of the exception
    [ObjectId] raised, and the store is untouched.  A [null]
    [assigned_user] does not raise: [ObjectId] generates an identifier, and
    the answer is 404 when no stored user has it. *)
Theorem create_task_invalid_assignee (cu : string) (e : env) (s : store)
    (d : dict) (au td tt tm : value) :
  lookup "assigned_user" d = Some au -> lookup "task_date" d = Some td ->
  lookup "task_time" d = Some tt -> lookup "task_msg" d = Some tm ->
  (invalid_object_id au ->
     create_task cu e (JObject d) s = ((ErrorMessage (object_id_error au), 500), s)) /\
  (au = VNone ->
   (forall u, In u (users s) -> doc_id u <> generated e) ->
     create_task cu e (JObject d) s = ((Message "Assigned user not found", 404), s)).
Proof.
  intros Hau Htd Htt Htm. split.
  - intros Hinv.
    apply (create_task_object_id_raises cu e s d au td tt tm); auto.
    now apply ObjectId_invalid.
  - intros -> Hnone.
    now apply (create_task_unknown_assignee cu e s d VNone td tt tm (generated e)).
Qed.

(** ** Documents scoped by [_id] and an owner field *)

Lemma set_coll_same (c : collection) (s : store) : set_coll c (get_coll c s) s = s.
Proof. now destruct s, c. Qed.

Lemma matches_scoped (o : oid) (k owner : string) (x : document) :
  matches [IdEq o; FieldEq k (VStr owner)] x = true <->
  doc_id x = o /\ lookup k (doc_body x) = Some (VStr owner).
Proof.
  unfold matches; simpl. rewrite andb_true_r, andb_true_iff, oid_eqb_eq.
  unfold field_matches. destruct (lookup k (doc_body x)) as [v|].
  - rewrite value_eqb_eq. split; intros [H1 H2]; split; congruence.
  - split; intros [H1 H2]; discriminate.
Qed.

Lemma scoped_foreign (l : list document) (t : document) (k A B : string) :
  NoDup (map doc_id l) -> In t l ->
  lookup k (doc_body t) = Some (VStr A) -> B <> A ->
  forall x, In x l -> matches [IdEq (doc_id t); FieldEq k (VStr B)] x = false.
Proof.
  intros Hnd Hin Hown Hne x Hx.
  destruct (matches _ x) eqn:E; [|reflexivity].
  apply matches_scoped in E as [Hid Hk].
  rewrite (unique_id l x t Hnd Hx Hin Hid), Hown in Hk. congruence.
Qed.

Lemma find_unique {A} (f : A -> bool) (l : list A) (t : A) :
  In t l -> f t = true -> (forall x, In x l -> f x = true -> x = t) ->
  List.find f l = Some t.
Proof.
  intros Hin Ht Hu. destruct (find_exists f l t Hin Ht) as [y Hy].
  rewrite Hy. f_equal. apply find_some in Hy as [Hy1 Hy2]. now apply Hu.
Qed.

Lemma scoped_owner (l : list document) (t : document) (k A : string) :
  NoDup (map doc_id l) -> In t l ->
  lookup k (doc_body t) = Some (VStr A) ->
  List.find (matches [IdEq (doc_id t); FieldEq k (VStr A)]) l = Some t.
Proof.
  intros Hnd Hin Hown. apply find_unique; auto.
  - now apply matches_scoped.
  - intros x Hx Hm. apply matches_scoped in Hm as [Hid _].
    now apply (unique_id l x t).
Qed.

Lemma ObjectId_str (g o : oid) : ObjectId g (VStr (oid_str o)) = Ok o.
Proof. simpl. now rewrite oid_of_str_str. Qed.

Lemma template_foreign_get (s : store) (t : document) (A B : string) (e : env) (data : json) :
  In t (templates s) -> NoDup (map doc_id (templates s)) ->
  lookup "user_id" (doc_body t) = Some (VStr A) -> B <> A ->
  template_operations GET B e (oid_str (doc_id t)) data s =
    ((Message "Template not found", 404), s).
Proof.
  intros Hin Hnd Hown Hne.
  unfold template_operations, try_except, bind, lift, ret.
  rewrite ObjectId_str. unfold find_one. cbn [query_ok forallb andb get_coll].
  rewrite find_all_false; [reflexivity|].
  now apply (scoped_foreign _ t "user_id" A B).
Qed.

Lemma template_foreign_put (s : store) (t : document) (A B : string) (e : env)
    (d : dict) (n sj b : value) :
  In t (templates s) -> NoDup (map doc_id (templates s)) ->
  lookup "user_id" (doc_body t) = Some (VStr A) -> B <> A ->
  lookup "template_name" d = Some n -> lookup "subject" d = Some sj ->
  lookup "body" d = Some b ->
  bson_ok n = true -> bson_ok sj = true -> bson_ok b = true ->
  template_operations PUT B e (oid_str (doc_id t)) (JObject d) s =
    ((Message "Template not found", 404), s).
Proof.
  intros Hin Hnd Hown Hne Hn Hsj Hb On Osj Ob.
  unfold template_operations, try_except, bind, lift, ret.
  rewrite ObjectId_str.
  rewrite (lookup_truthy _ _ _ Hn). cbn [negb all_in py_in getitem].
  rewrite Hn, Hsj, Hb. cbn [negb].
  unfold update_one. cbn [query_ok dict_ok forallb andb snd bson_ok].
  rewrite On, Osj, Ob. cbn [andb].
  rewrite update_first_nomatch by now apply (scoped_foreign _ t "user_id" A B).
  now rewrite set_coll_same.
Qed.

Lemma template_foreign_delete (s : store) (t : document) (A B : string) (e : env) (data : json) :
  In t (templates s) -> NoDup (map doc_id (templates s)) ->
  lookup "user_id" (doc_body t) = Some (VStr A) -> B <> A ->
  template_operations DELETE B e (oid_str (doc_id t)) data s =
    ((Message "Template not found", 404), s).
Proof.
  intros Hin Hnd Hown Hne.
  unfold template_operations, try_except, bind, lift, ret.
  rewrite ObjectId_str. unfold delete_one. cbn [query_ok forallb andb].
  rewrite delete_first_nomatch by now apply (scoped_foreign _ t "user_id" A B).
  now rewrite set_coll_same.
Qed.

Lemma scoped_owner_split (l : list document) (t : document) (k A : string) :
  NoDup (map doc_id l) -> In t l ->
  lookup k (doc_body t) = Some (VStr A) ->
  exists l1 l2, l = l1 ++ t :: l2 /\
    (forall x, In x l1 -> matches [IdEq (doc_id t); FieldEq k (VStr A)] x = false) /\
    matches [IdEq (doc_id t); FieldEq k (VStr A)] t = true.
Proof.
  intros Hnd Hin Hown. apply find_first_split. now apply scoped_owner.
Qed.

Lemma lookup_set_fields_last (upd : dict) (k : string) (v : value) (t : document) :
  lookup k (doc_body (set_fields (upd ++ [(k, v)]) t)) = Some v.
Proof.
  unfold set_fields; simpl. rewrite fold_left_app; simpl.
  apply lookup_dict_set_eq.
Qed.

Lemma set_fields_other (upd : dict) (k : string) (t : document) :
  lookup k upd = None ->
  lookup k (doc_body (set_fields upd t)) = lookup k (doc_body t).
Proof.
  unfold set_fields; simpl. generalize (doc_body t) as b.
  induction upd as [|[k' v'] upd IH]; simpl; intros b H; [reflexivity|].
  destruct (String.eqb k k') eqn:E; [discriminate|].
  rewrite IH by assumption. apply lookup_dict_set_neq.
  now apply String.eqb_neq.
Qed.

Lemma stamped_differs (upd : dict) (stamp : value) (t : document) :
  lookup "updated_at" (doc_body t) <> Some stamp ->
  doc_eqb t (set_fields (upd ++ [("updated_at", stamp)]) t) = false.
Proof.
  intros H. destruct (doc_eqb _ _) eqn:E; [|reflexivity].
  apply doc_eqb_eq in E. exfalso. apply H.
  rewrite E at 1. apply lookup_set_fields_last.
Qed.

Lemma template_owner_put (s : store) (t : document) (A : string) (e : env)
    (d : dict) (n sj b : value) :
  In t (templates s) -> NoDup (map doc_id (templates s)) ->
  lookup "user_id" (doc_body t) = Some (VStr A) ->
  lookup "template_name" d = Some n -> lookup "subject" d = Some sj ->
  lookup "body" d = Some b ->
  bson_ok n = true -> bson_ok sj = true -> bson_ok b = true ->
  exists l1 l2, templates s = l1 ++ t :: l2 /\
    template_operations PUT A e (oid_str (doc_id t)) (JObject d) s =
      (if doc_eqb t (set_fields (template_update e n sj b) t)
       then (Message "Template not found", 404)
       else (Message "Template updated successfully", 200),
       with_templates s (l1 ++ set_fields (template_update e n sj b) t :: l2)).
Proof.
  intros Hin Hnd Hown Hn Hsj Hb On Osj Ob.
  destruct (scoped_owner_split _ t "user_id" A Hnd Hin Hown) as (l1 & l2 & Hl & Hl1 & Ht).
  exists l1, l2. split; [exact Hl|].
  unfold template_operations, try_except, bind, lift, ret.
  rewrite ObjectId_str.
  rewrite (lookup_truthy _ _ _ Hn). cbn [negb all_in py_in getitem].
  rewrite Hn, Hsj, Hb. cbn [negb].
  unfold update_one. cbn [query_ok dict_ok forallb andb snd bson_ok get_coll].
  rewrite On, Osj, Ob. cbn [andb].
  rewrite Hl, (update_first_split _ _ l1 l2 t Hl1 Ht).
  fold (template_update e n sj b).
  now destruct (doc_eqb t (set_fields (template_update e n sj b) t)).
Qed.

Lemma template_owner_delete (s : store) (t : document) (A : string) (e : env) (data : json) :
  In t (templates s) -> NoDup (map doc_id (templates s)) ->
  lookup "user_id" (doc_body t) = Some (VStr A) ->
  exists l1 l2, templates s = l1 ++ t :: l2 /\
    template_operations DELETE A e (oid_str (doc_id t)) data s =
      ((Message "Template deleted successfully", 200), with_templates s (l1 ++ l2)).
Proof.
  intros Hin Hnd Hown.
  destruct (scoped_owner_split _ t "user_id" A Hnd Hin Hown) as (l1 & l2 & Hl & Hl1 & Ht).
  exists l1, l2. split; [exact Hl|].
  unfold template_operations, try_except, bind, lift, ret.
  rewrite ObjectId_str. unfold delete_one. cbn [query_ok forallb andb get_coll].
  now rewrite Hl, (delete_first_split _ l1 l2 t Hl1 Ht).
Qed.


Lemma isoformat_field_dated (k : string) (d : dict) :
  match lookup k d with Some (VDate _) | None => True | Some _ => False end ->
  exists d', isoformat_field k d = Ok d' /\
    lookup k d' = option_map iso_view (lookup k d) /\
    forall k', k' <> k -> lookup k' d' = lookup k' d.
Proof.
  unfold isoformat_field. destruct (lookup k d) as [v|] eqn:E.
  - destruct v; try contradiction. intros _. simpl.
    eexists. split; [reflexivity|]. split.
    + apply lookup_dict_set_eq.
    + intros k' Hk'. now apply lookup_dict_set_neq.
  - intros _. exists d. now rewrite E.
Qed.

Lemma template_owner_get (s : store) (t : document) (A : string) (e : env) (data : json) :
  In t (templates s) -> NoDup (map doc_id (templates s)) ->
  lookup "user_id" (doc_body t) = Some (VStr A) ->
  dated "created_at" t -> dated "updated_at" t ->
  exists view,
    template_operations GET A e (oid_str (doc_id t)) data s = ((Doc view, 200), s) /\
    lookup "_id" view = Some (VStr (oid_str (doc_id t))) /\
    forall k, k <> "_id" ->
      lookup k view = option_map (shown_field k) (lookup k (doc_body t)).
Proof.
  intros Hin Hnd Hown Hc Hu.
  unfold template_operations, try_except, bind, lift, ret.
  rewrite ObjectId_str. unfold find_one. cbn [query_ok forallb andb get_coll bson_ok].
  rewrite (scoped_owner _ t "user_id" A Hnd Hin Hown).
  unfold stringify, dict_getitem. cbn [py_dict lookup String.eqb Ascii.eqb Bool.eqb dict_set py_str].
  set (d0 := ("_id", VStr (oid_str (doc_id t))) :: doc_body t).
  assert (H0 : forall k, k <> "_id" -> lookup k d0 = lookup k (doc_body t)).
  { intros k Hk. subst d0. simpl. apply String.eqb_neq in Hk. now rewrite Hk. }
  destruct (isoformat_field_dated "created_at" d0) as (d1 & -> & Hd1 & Hd1').
  { rewrite H0 by discriminate. exact Hc. }
  destruct (isoformat_field_dated "updated_at" d1) as (d2 & -> & Hd2 & Hd2').
  { rewrite Hd1', H0 by discriminate. exact Hu. }
  exists d2. split; [reflexivity|]. split.
  - now rewrite Hd2', Hd1' by discriminate.
  - intros k Hk. unfold shown_field.
    destruct (String.eqb k "updated_at") eqn:E2.
    + apply String.eqb_eq in E2. subst k. rewrite orb_true_r.
      now rewrite Hd2, Hd1', H0 by discriminate.
    + rewrite orb_false_r. apply String.eqb_neq in E2.
      rewrite Hd2' by assumption.
      destruct (String.eqb k "created_at") eqn:E1.
      * apply String.eqb_eq in E1. subst k. now rewrite Hd1, H0.
      * apply String.eqb_neq in E1. rewrite Hd1', H0 by assumption.
        now destruct (lookup k (doc_body t)).
Qed.

Lemma find_one_id (c : collection) (u : document) (s : store) :
  In u (get_coll c s) -> NoDup (map doc_id (get_coll c s)) ->
  find_one c [IdEq (doc_id u)] s = (Ok (Some u), s).
Proof.
  intros Hin Hnd. unfold find_one; simpl. f_equal. f_equal.
  apply find_unique; auto.
  - unfold matches; simpl. now rewrite oid_eqb_refl.
  - intros x Hx Hm. unfold matches in Hm; simpl in Hm.
    rewrite andb_true_r in Hm. apply oid_eqb_eq in Hm.
    now apply (unique_id (get_coll c s) x u).
Qed.

Lemma find_one_total (c : collection) (o : oid) (s : store) :
  exists r, find_one c [IdEq o] s = (Ok r, s).
Proof. unfold find_one; simpl. eauto. Qed.

Lemma task_put_run (s : store) (t u : document) (e : env) (d : dict)
    (v ab fn ln : value) (abo : oid) :
  In t (tasks s) -> NoDup (map doc_id (tasks s)) ->
  In u (users s) -> NoDup (map doc_id (users s)) ->
  lookup "assigned_user" (doc_body t) = Some (VStr (oid_str (doc_id u))) ->
  lookup "assigned_by" (doc_body t) = Some ab ->
  ObjectId (generated e) ab = Ok abo ->
  lookup "first_name" (doc_body u) = Some fn ->
  lookup "last_name" (doc_body u) = Some ln ->
  lookup "is_completed" d = Some v -> bson_ok v = true ->
  exists l1 l2, tasks s = l1 ++ t :: l2 /\
    task_operations PUT (oid_str (doc_id u)) e (oid_str (doc_id t)) (JObject d) s =
      (if doc_eqb t (set_fields (task_update e v) t)
       then (Message "Task not found", 404)
       else (Updated "Task updated successfully"
               ("Task completed by " ++ py_str fn ++ " " ++ py_str ln)%string, 200),
       with_tasks s (l1 ++ set_fields (task_update e v) t :: l2)).
Proof.
  intros Hin Hnd Hu Hndu Hau Hab Habo Hfn Hln Hv Ov.
  destruct (scoped_owner_split _ t "assigned_user" _ Hnd Hin Hau)
    as (l1 & l2 & Hl & Hl1 & Ht).
  exists l1, l2. split; [exact Hl|].
  unfold task_operations, try_except, bind, lift, ret.
  rewrite ObjectId_str.
  rewrite (lookup_truthy _ _ _ Hv). cbn [negb all_in py_in getitem].
  rewrite Hv. cbn [negb].
  unfold find_one at 1. cbn [query_ok forallb andb get_coll bson_ok].
  rewrite (scoped_owner _ t "assigned_user" _ Hnd Hin Hau).
  unfold update_one. cbn [query_ok dict_ok forallb andb snd bson_ok get_coll].
  rewrite Ov. cbn [andb].
  rewrite Hl, (update_first_split _ _ l1 l2 t Hl1 Ht).
  fold (task_update e v).
  destruct (doc_eqb t (set_fields (task_update e v) t)); [reflexivity|].
  cbn [Z.eqb set_coll].
  unfold dict_getitem. cbn [py_dict lookup String.eqb Ascii.eqb Bool.eqb].
  rewrite Hab, Habo.
  match goal with
  | |- context [find_one Users [IdEq abo] ?s1] =>
      destruct (find_one_total Users abo s1) as [r ->]
  end.
  rewrite Hau, ObjectId_str.
  rewrite (find_one_id Users u) by assumption.
  unfold found_getitem, dict_getitem.
  cbn [py_dict lookup String.eqb Ascii.eqb Bool.eqb].
  now rewrite Hfn, Hln.
Qed.


Lemma dict_set_same (k : string) (v : value) (d : dict) :
  lookup k d = Some v -> dict_set k v d = d.
Proof.
  induction d as [|[k' v'] d IH]; simpl; [discriminate|].
  destruct (String.eqb k k') eqn:E.
  - now intros [= ->].
  - intros H. now rewrite IH.
Qed.

Lemma set_fields_same (upd : dict) (t : document) :
  (forall k v, In (k, v) upd -> lookup k (doc_body t) = Some v) ->
  set_fields upd t = t.
Proof.
  destruct t as [i b]. unfold set_fields; simpl. intros H. f_equal.
  induction upd as [|[k v] upd IH]; simpl; [reflexivity|].
  rewrite dict_set_same by (apply H; now left).
  apply IH. intros k' v' Hin. apply H. now right.
Qed.

Lemma doc_eqb_refl (t : document) : doc_eqb t t = true.
Proof.
  unfold doc_eqb. rewrite oid_eqb_refl; simpl.
  induction (doc_body t) as [|[k v] b IH]; simpl; [reflexivity|].
  rewrite String.eqb_refl, IH, andb_true_r; simpl. now apply value_eqb_eq.
Qed.

Lemma with_templates_same (s : store) (l : list document) :
  templates s = l -> with_templates s l = s.
Proof. intros <-. now destruct s. Qed.

Lemma with_tasks_same (s : store) (l : list document) :
  tasks s = l -> with_tasks s l = s.
Proof. intros <-. now destruct s. Qed.

(** ** Ownership of templates *)

Lemma template_put_unencodable (cu : string) (s : store) (o : oid) (e : env)
    (d : dict) (n sj b : value) :
  lookup "template_name" d = Some n -> lookup "subject" d = Some sj ->
  lookup "body" d = Some b ->
  bson_ok n && bson_ok sj && bson_ok b = false ->
  template_operations PUT cu e (oid_str o) (JObject d) s =
    ((ErrorMessage OverflowError, 500), s).
Proof.
  intros Hn Hsj Hb Hbad.
  unfold template_operations, try_except, bind, lift, ret.
  rewrite ObjectId_str.
  rewrite (lookup_truthy _ _ _ Hn). cbn [negb all_in py_in getitem].
  rewrite Hn, Hsj, Hb. cbn [negb].
  unfold update_one. cbn [query_ok dict_ok forallb andb snd bson_ok].
  rewrite andb_true_r.
  replace (bson_ok n && (bson_ok sj && bson_ok b)) with false
    by now rewrite andb_assoc.
  reflexivity.
Qed.

Lemma template_update_fields (e : env) (n sj b : value) (t : document) :
  let t' := set_fields (template_update e n sj b) t in
  lookup "template_name" (doc_body t') = Some n /\
  lookup "subject" (doc_body t') = Some sj /\
  lookup "body" (doc_body t') = Some b /\
  lookup "updated_at" (doc_body t') = Some (VDate (now e)).
Proof.
  unfold set_fields, template_update; simpl.
  repeat split;
    repeat first [ apply lookup_dict_set_eq
                 | rewrite lookup_dict_set_neq by discriminate ].
Qed.

Lemma template_update_writes_nothing (e : env) (n sj b : value) (t : document) :
  doc_eqb t (set_fields (template_update e n sj b) t) = true <->
  writes_nothing e n sj b t.
Proof.
  split.
  - intros H. apply doc_eqb_eq in H.
    destruct (template_update_fields e n sj b t) as (Hn & Hsj & Hb & Hu).
    cbv zeta in Hn, Hsj, Hb, Hu. rewrite <- H in Hn, Hsj, Hb, Hu.
    now repeat split.
  - intros (Hn & Hsj & Hb & Hu).
    rewrite set_fields_same; [apply doc_eqb_refl|].
    intros k v [[= <- <-]|[[= <- <-]|[[= <- <-]|[[= <- <-]|[]]]]]; assumption.
Qed.

(** C1 (amended). For a template owned by [A], requested under its own
    id, and a caller [B] other than [A]: [B]'s GET and DELETE are answered
    404 and leave the store as it was, and so is [B]'s PUT carrying the
    three fields when the driver can encode their values; with a value it
    cannot encode the PUT is answered 500, whoever sends it.  [A]'s GET is
    answered 200 with the document, its [_id] and dates in text; [A]'s
    DELETE is answered 200 and removes the document; [A]'s PUT carrying
    three fields the driver can encode is answered 200 and rewrites the
    document, except when the three values and the time of the request are
    the stored ones: that write modifies nothing and is answered 404. *)
Theorem template_owner_isolation (s : store) (t : document) (A B : string)
    (e : env) (d : dict) (n sj b : value) :
  In t (templates s) -> NoDup (map doc_id (templates s)) ->
  lookup "user_id" (doc_body t) = Some (VStr A) -> B <> A ->
  lookup "template_name" d = Some n -> lookup "subject" d = Some sj ->
  lookup "body" d = Some b ->
  let id := oid_str (doc_id t) in
  let not_found := ((Message "Template not found", 404), s) in
  (forall data, template_operations GET B e id data s = not_found) /\
  (bson_ok n && bson_ok sj && bson_ok b = true ->
     template_operations PUT B e id (JObject d) s = not_found) /\
  (bson_ok n && bson_ok sj && bson_ok b = false ->
     forall cu, template_operations PUT cu e id (JObject d) s =
                  ((ErrorMessage OverflowError, 500), s)) /\
  (forall data, template_operations DELETE B e id data s = not_found) /\
  (dated "created_at" t -> dated "updated_at" t ->
   forall data, exists view,
     template_operations GET A e id data s = ((Doc view, 200), s) /\
     lookup "_id" view = Some (VStr id) /\
     forall k, k <> "_id" ->
       lookup k view = option_map (shown_field k) (lookup k (doc_body t))) /\
  (bson_ok n && bson_ok sj && bson_ok b = true ->
   (writes_nothing e n sj b t ->
      template_operations PUT A e id (JObject d) s = not_found) /\
   (~ writes_nothing e n sj b t ->
      exists l1 l2, templates s = l1 ++ t :: l2 /\
        template_operations PUT A e id (JObject d) s =
          ((Message "Template updated successfully", 200),
           with_templates s (l1 ++ set_fields (template_update e n sj b) t :: l2)))) /\
  (forall data, exists l1 l2, templates s = l1 ++ t :: l2 /\
     template_operations DELETE A e id data s =
       ((Message "Template deleted successfully", 200), with_templates s (l1 ++ l2))).
Proof.
  intros Hin Hnd Hown Hne Hn Hsj Hb id not_found.
  split; [|split; [|split; [|split; [|split; [|split]]]]].
  - intros data. now apply (template_foreign_get s t A B).
  - intros Hok. apply andb_prop in Hok as [Hok Ob]. apply andb_prop in Hok as [On Osj].
    now apply (template_foreign_put s t A B e d n sj b).
  - intros Hbad cu. now apply (template_put_unencodable cu s (doc_id t) e d n sj b).
  - intros data. now apply (template_foreign_delete s t A B).
  - intros Hc Hu data. now apply template_owner_get.
  - intros Hok. apply andb_prop in Hok as [Hok Ob]. apply andb_prop in Hok as [On Osj].
    destruct (template_owner_put s t A e d n sj b) as (l1 & l2 & Hl & Hrun); auto.
    fold id in Hrun. split.
    + intros Hsame. rewrite Hrun.
      apply (template_update_writes_nothing e n sj b t) in Hsame as Heq.
      rewrite Heq. unfold not_found. f_equal.
      apply doc_eqb_eq in Heq. rewrite <- Heq.
      now apply with_templates_same.
    + intros Hdiff. exists l1, l2. split; [exact Hl|]. rewrite Hrun.
      destruct (doc_eqb t (set_fields (template_update e n sj b) t)) eqn:Heq;
        [|reflexivity].
      exfalso. apply Hdiff. now apply template_update_writes_nothing.
  - intros data. now apply template_owner_delete.
Qed.

(** ** Updates that repeat the stored values *)

Lemma template_put_same_values (s : store) (t : document) (A : string) (e : env)
    (d : dict) (n sj b : value) :
  In t (templates s) -> NoDup (map doc_id (templates s)) ->
  lookup "user_id" (doc_body t) = Some (VStr A) ->
  lookup "template_name" d = Some n -> lookup "subject" d = Some sj ->
  lookup "body" d = Some b ->
  bson_ok n = true -> bson_ok sj = true -> bson_ok b = true ->
  lookup "template_name" (doc_body t) = Some n ->
  lookup "subject" (doc_body t) = Some sj ->
  lookup "body" (doc_body t) = Some b ->
  (lookup "updated_at" (doc_body t) <> Some (VDate (now e)) ->
   fst (template_operations PUT A e (oid_str (doc_id t)) (JObject d) s) =
     (Message "Template updated successfully", 200)) /\
  (lookup "updated_at" (doc_body t) = Some (VDate (now e)) ->
   template_operations PUT A e (oid_str (doc_id t)) (JObject d) s =
     ((Message "Template not found", 404), s)).
Proof.
  intros Hin Hnd Hown Hn Hsj Hb On Osj Ob Sn Ssj Sb.
  destruct (template_owner_put s t A e d n sj b) as (l1 & l2 & Hl & Hrun); auto.
  rewrite Hrun. split; intros Hstamp.
  - pose proof (stamped_differs [("template_name", n); ("subject", sj); ("body", b)]
                  (VDate (now e)) t Hstamp) as Hd.
    cbn [app] in Hd. fold (template_update e n sj b) in Hd. now rewrite Hd.
  - rewrite set_fields_same, doc_eqb_refl.
    + now rewrite with_templates_same.
    + intros k v [[= <- <-]|[[= <- <-]|[[= <- <-]|[[= <- <-]|[]]]]]; assumption.
Qed.

Lemma task_put_same_value (s : store) (t u : document) (e : env) (d : dict)
    (v ab fn ln : value) (abo : oid) :
  In t (tasks s) -> NoDup (map doc_id (tasks s)) ->
  In u (users s) -> NoDup (map doc_id (users s)) ->
  lookup "assigned_user" (doc_body t) = Some (VStr (oid_str (doc_id u))) ->
  lookup "assigned_by" (doc_body t) = Some ab ->
  ObjectId (generated e) ab = Ok abo ->
  lookup "first_name" (doc_body u) = Some fn ->
  lookup "last_name" (doc_body u) = Some ln ->
  lookup "is_completed" d = Some v -> bson_ok v = true ->
  lookup "is_completed" (doc_body t) = Some v ->
  (lookup "updated_at" (doc_body t) <> Some (VDate (now e)) ->
   fst (task_operations PUT (oid_str (doc_id u)) e (oid_str (doc_id t)) (JObject d) s) =
     (Updated "Task updated successfully"
        ("Task completed by " ++ py_str fn ++ " " ++ py_str ln)%string, 200)) /\
  (lookup "updated_at" (doc_body t) = Some (VDate (now e)) ->
   task_operations PUT (oid_str (doc_id u)) e (oid_str (doc_id t)) (JObject d) s =
     ((Message "Task not found", 404), s)).
Proof.
  intros Hin Hnd Hu Hndu Hau Hab Habo Hfn Hln Hv Ov Sv.
  destruct (task_put_run s t u e d v ab fn ln abo) as (l1 & l2 & Hl & Hrun); auto.
  rewrite Hrun. split; intros Hstamp.
  - pose proof (stamped_differs [("is_completed", v)] (VDate (now e)) t Hstamp) as Hd.
    cbn [app] in Hd. fold (task_update e v) in Hd. now rewrite Hd.
  - rewrite set_fields_same, doc_eqb_refl.
    + now rewrite with_tasks_same.
    + intros k w [[= <- <-]|[[= <- <-]|[]]]; assumption.
Qed.

(** C2 (amended). Both updates write [updated_at] along with the fields
    sent, so a PUT by the owner (the assignee) that repeats the stored
    values is answered 200 whenever the time of the request differs from
    the stored [updated_at], in particular when the document has none.
    It is answered 404 only when that time is the stored one as well, the
    single case in which the write modifies nothing. *)
Theorem put_repeating_stored_values (e : env) (s : store) :
  (forall t A d n sj b,
     In t (templates s) -> NoDup (map doc_id (templates s)) ->
     lookup "user_id" (doc_body t) = Some (VStr A) ->
     lookup "template_name" d = Some n -> lookup "subject" d = Some sj ->
     lookup "body" d = Some b ->
     bson_ok n = true -> bson_ok sj = true -> bson_ok b = true ->
     lookup "template_name" (doc_body t) = Some n ->
     lookup "subject" (doc_body t) = Some sj ->
     lookup "body" (doc_body t) = Some b ->
     (lookup "updated_at" (doc_body t) <> Some (VDate (now e)) ->
      fst (template_operations PUT A e (oid_str (doc_id t)) (JObject d) s) =
        (Message "Template updated successfully", 200)) /\
     (lookup "updated_at" (doc_body t) = Some (VDate (now e)) ->
      template_operations PUT A e (oid_str (doc_id t)) (JObject d) s =
        ((Message "Template not found", 404), s))) /\
  (forall t u d v ab abo fn ln,
     In t (tasks s) -> NoDup (map doc_id (tasks s)) ->
     In u (users s) -> NoDup (map doc_id (users s)) ->
     lookup "assigned_user" (doc_body t) = Some (VStr (oid_str (doc_id u))) ->
     lookup "assigned_by" (doc_body t) = Some ab ->
     ObjectId (generated e) ab = Ok abo ->
     lookup "first_name" (doc_body u) = Some fn ->
     lookup "last_name" (doc_body u) = Some ln ->
     lookup "is_completed" d = Some v -> bson_ok v = true ->
     lookup "is_completed" (doc_body t) = Some v ->
     (lookup "updated_at" (doc_body t) <> Some (VDate (now e)) ->
      fst (task_operations PUT (oid_str (doc_id u)) e (oid_str (doc_id t)) (JObject d) s) =
        (Updated "Task updated successfully"
           ("Task completed by " ++ py_str fn ++ " " ++ py_str ln)%string, 200)) /\
     (lookup "updated_at" (doc_body t) = Some (VDate (now e)) ->
      task_operations PUT (oid_str (doc_id u)) e (oid_str (doc_id t)) (JObject d) s =
        ((Message "Task not found", 404), s))).
Proof.
  split.
  - intros t A d n sj b. apply template_put_same_values.
  - intros t u d v ab abo fn ln. apply task_put_same_value.
Qed.

(** ** The frame of a task update *)


(** ** What every path of a handler does to the store *)

Section Respects.

Variable R : store -> store -> Prop.
Hypothesis R_refl : forall s, R s s.
Hypothesis R_trans : forall a b c, R a b -> R b c -> R a c.

Lemma respects_ret {A} (a : A) : respects R (ret a).
Proof. intros s. apply R_refl. Qed.

Lemma respects_lift {A} (r : result A) : respects R (lift r).
Proof. intros s. apply R_refl. Qed.

Lemma respects_bind {A B} (m : M A) (k : A -> M B) :
  respects R m -> (forall a, respects R (k a)) -> respects R (bind m k).
Proof.
  intros Hm Hk s. unfold bind. specialize (Hm s).
  destruct (m s) as [[a|ex] s1]; simpl in *; [|exact Hm].
  apply R_trans with s1; [exact Hm | apply Hk].
Qed.

Lemma respects_find_one (c : collection) (q : query) : respects R (find_one c q).
Proof. intros s. unfold find_one. destruct (query_ok q); apply R_refl. Qed.

Lemma respects_find (c : collection) (q : query) : respects R (find c q).
Proof. intros s. unfold find. destruct (query_ok q); apply R_refl. Qed.

Lemma respects_map_M {A B} (f : A -> M B) (l : list A) :
  (forall a, respects R (f a)) -> respects R (map_M f l).
Proof.
  intros Hf. induction l as [|a l IH]; simpl.
  - apply respects_ret.
  - apply respects_bind; [apply Hf|]. intros b.
    apply respects_bind; [exact IH|]. intros bs. apply respects_ret.
Qed.

Lemma respects_try_except (m : M response) (s : store) :
  respects R m -> R s (snd (try_except m s)).
Proof.
  intros Hm. unfold try_except. specialize (Hm s).
  now destruct (m s) as [[r|ex] s1].
Qed.

End Respects.

(** Walks through a handler, leaving the writes to [writes]. *)
Ltac walk R Hrefl Htrans writes :=
  repeat first
    [ apply (respects_ret R Hrefl)
    | apply (respects_lift R Hrefl)
    | apply (respects_find_one R Hrefl)
    | apply (respects_find R Hrefl)
    | apply (respects_map_M R Hrefl Htrans); intros ?
    | writes
    | apply (respects_bind R Htrans); [|intros ?]
    | match goal with
      | |- respects _ (if ?b then _ else _) => destruct b
      | |- respects _ (match ?x with _ => _ end) => destruct x
      end ].

Lemma unchanged_refl s : unchanged s s. Proof. reflexivity. Qed.
Lemma unchanged_trans a b c : unchanged a b -> unchanged b c -> unchanged a c.
Proof. unfold unchanged. congruence. Qed.

Ltac read_only :=
  apply (respects_try_except unchanged);
  walk constr:(unchanged) unchanged_refl unchanged_trans fail.

(** X1. The handlers that only read ([POST /login], [GET /team],
    [GET /template], [GET /task] and the GET of one template or task) return
    the store they were given on every path, errors included. *)
Theorem read_only_handlers (cu id : string) (e : env) (data : json) (s : store) :
  snd (login data s) = s /\
  snd (get_users cu e s) = s /\
  snd (get_all_templates cu s) = s /\
  snd (get_tasks cu e s) = s /\
  snd (template_operations GET cu e id data s) = s /\
  snd (task_operations GET cu e id data s) = s.
Proof.
  repeat apply conj.
  - unfold login. read_only.
  - unfold get_users. read_only.
  - unfold get_all_templates. read_only.
  - unfold get_tasks. read_only.
  - unfold template_operations. read_only.
  - unfold task_operations. read_only.
Qed.

(** ** Creation is all or nothing *)

Ltac all_paths H :=
  repeat (break_inner H; cbn beta iota in H);
  injection H as <- <-;
  first [ right; split; [discriminate | reflexivity]
        | left; split; [reflexivity|]; eexists; split; reflexivity ].

Lemma register_all_or_nothing (e : env) (data : json) (s s' : store) (r : response) :
  register e data s = (r, s') ->
  (snd r = 201 /\ exists u, s' = with_user s u /\ doc_id u = new_id e) \/
  (snd r <> 201 /\ s' = s).
Proof.
  intros H.
  unfold register, try_except, bind, lift, ret, find_one, insert_one in H.
  all_paths H.
Qed.

Lemma create_template_all_or_nothing (cu : string) (e : env) (data : json)
    (s s' : store) (r : response) :
  create_template cu e data s = (r, s') ->
  (snd r = 201 /\ exists t, s' = with_template s t /\ doc_id t = new_id e) \/
  (snd r <> 201 /\ s' = s).
Proof.
  intros H.
  unfold create_template, try_except, bind, lift, ret, find_one, insert_one in H.
  all_paths H.
Qed.

Lemma create_task_all_or_nothing (cu : string) (e : env) (data : json)
    (s s' : store) (r : response) :
  create_task cu e data s = (r, s') ->
  (snd r = 201 /\ exists t, s' = with_task s t /\ doc_id t = new_id e) \/
  (snd r <> 201 /\ s' = s).
Proof.
  intros H.
  unfold create_task, try_except, bind, lift, ret, find_one, insert_one in H.
  all_paths H.
Qed.

(** X2. The three creation handlers are all or nothing: answered 201, they
    added exactly one document, with the generated [_id], to their own
    collection; answered anything else, they left the store as it was. *)
Theorem creation_is_all_or_nothing (cu : string) (e : env) (data : json)
    (s s' : store) (r : response) :
  (register e data s = (r, s') ->
   (snd r = 201 /\ exists u, s' = with_user s u /\ doc_id u = new_id e) \/
   (snd r <> 201 /\ s' = s)) /\
  (create_template cu e data s = (r, s') ->
   (snd r = 201 /\ exists t, s' = with_template s t /\ doc_id t = new_id e) \/
   (snd r <> 201 /\ s' = s)) /\
  (create_task cu e data s = (r, s') ->
   (snd r = 201 /\ exists t, s' = with_task s t /\ doc_id t = new_id e) \/
   (snd r <> 201 /\ s' = s)).
Proof.
  split; [|split].
  - apply register_all_or_nothing.
  - apply create_template_all_or_nothing.
  - apply create_task_all_or_nothing.
Qed.

(** ** Writes that modify nothing, answers that wrote nothing *)

Lemma update_first_zero (q : query) (upd : dict) (l l' : list document) :
  update_first q upd l = (l', 0) -> l' = l.
Proof.
  revert l'. induction l as [|d l IH]; simpl; intros l' H.
  - now injection H as <-.
  - destruct (matches q d).
    + destruct (doc_eqb d (set_fields upd d)) eqn:E; [|discriminate].
      injection H as <-. apply doc_eqb_eq in E. now rewrite <- E.
    + destruct (update_first q upd l) as [l'' n]. injection H as <- ->.
      f_equal. now apply IH.
Qed.

Lemma delete_first_zero (q : query) (l l' : list document) :
  delete_first q l = (l', 0) -> l' = l.
Proof.
  revert l'. induction l as [|d l IH]; simpl; intros l' H.
  - now injection H as <-.
  - destruct (matches q d); [discriminate|].
    destruct (delete_first q l) as [l'' n]. injection H as <- ->.
    f_equal. now apply IH.
Qed.

Ltac unwritten H :=
  repeat (break_inner H; cbn beta iota in H);
  injection H as <- <-; simpl in *;
  try reflexivity; try contradiction; try congruence;
  repeat match goal with
    | E : (?z =? 0) = true |- _ => apply Z.eqb_eq in E; subst z
    | E : update_first _ _ _ = (_, 0) |- _ => apply update_first_zero in E; subst
    | E : delete_first _ _ = (_, 0) |- _ => apply delete_first_zero in E; subst
    end;
  try match goal with |- _ = ?s => now destruct s end.

Lemma template_operations_writes_on_200 (m : method) (cu : string) (e : env)
    (id : string) (data : json) (s s' : store) (r : response) :
  template_operations m cu e id data s = (r, s') -> snd r <> 200 -> s' = s.
Proof.
  intros H Hr.
  unfold template_operations, try_except, bind, lift, ret,
    find_one, update_one, delete_one in H.
  destruct m; unwritten H.
Qed.

Lemma task_operations_writes_on_200 (m : method) (cu : string) (e : env)
    (id : string) (data : json) (s s' : store) (r : response) :
  task_operations m cu e id data s = (r, s') ->
  snd r <> 200 -> (m = PUT -> snd r <> 500) -> s' = s.
Proof.
  intros H Hr Hput.
  unfold task_operations, try_except, bind, lift, ret,
    find_one, update_one, delete_one in H.
  destruct m; unwritten H; try (exfalso; now apply Hput).
Qed.

(** X3. A template request answered anything but 200 has left the store as
    it was, and so has a task request, except that a task PUT may have
    written before it answers 500. *)
Theorem writes_happen_only_on_200 (m : method) (cu : string) (e : env)
    (id : string) (data : json) (s s' : store) (r : response) :
  (template_operations m cu e id data s = (r, s') -> snd r <> 200 -> s' = s) /\
  (task_operations m cu e id data s = (r, s') ->
   snd r <> 200 -> (m = PUT -> snd r <> 500) -> s' = s).
Proof.
  split.
  - apply template_operations_writes_on_200.
  - apply task_operations_writes_on_200.
Qed.

(** ** Identifiers stay unique *)

Lemma keeps_unique_ids_refl s : keeps_unique_ids s s.
Proof. now intros H. Qed.

Lemma keeps_unique_ids_trans a b c :
  keeps_unique_ids a b -> keeps_unique_ids b c -> keeps_unique_ids a c.
Proof. unfold keeps_unique_ids. auto. Qed.

Lemma unique_ids_set_coll (c : collection) (l : list document) (s : store) :
  NoDup (map doc_id l) -> unique_ids s -> unique_ids (set_coll c l s).
Proof. intros Hl (Hu & Ht & Hk). destruct c; repeat split; assumption. Qed.

Lemma unique_ids_get_coll (c : collection) (s : store) :
  unique_ids s -> NoDup (map doc_id (get_coll c s)).
Proof. intros (Hu & Ht & Hk). now destruct c. Qed.

Lemma existsb_oid_false_inv (o : oid) (l : list oid) :
  existsb (oid_eqb o) l = false -> ~ In o l.
Proof.
  intros H Hin. assert (existsb (oid_eqb o) l = true); [|congruence].
  apply existsb_exists. exists o. split; [exact Hin | apply oid_eqb_refl].
Qed.

Lemma update_first_ids (q : query) (upd : dict) (l : list document) :
  map doc_id (fst (update_first q upd l)) = map doc_id l.
Proof.
  induction l as [|d l IH]; simpl; [reflexivity|].
  destruct (matches q d); simpl; [reflexivity|].
  destruct (update_first q upd l) as [l' n]; simpl in *. now rewrite IH.
Qed.

Lemma delete_first_in (q : query) (l : list document) (x : document) :
  In x (fst (delete_first q l)) -> In x l.
Proof.
  induction l as [|d l IH]; simpl; [tauto|].
  destruct (matches q d); simpl; [tauto|].
  destruct (delete_first q l) as [l' n]; simpl in *. intros [H|H]; auto.
Qed.

Lemma delete_first_ids_in (q : query) (l : list document) (o : oid) :
  In o (map doc_id (fst (delete_first q l))) -> In o (map doc_id l).
Proof.
  intros H. apply in_map_iff in H as (x & <- & Hx).
  apply in_map. now apply (delete_first_in q).
Qed.

Lemma delete_first_nodup (q : query) (l : list document) :
  NoDup (map doc_id l) -> NoDup (map doc_id (fst (delete_first q l))).
Proof.
  induction l as [|d l IH]; simpl; intros H; [constructor|].
  inversion H as [|? ? Hnotin Hnd]; subst.
  destruct (matches q d); simpl; [exact Hnd|].
  pose proof (delete_first_ids_in q l (doc_id d)) as Hin.
  destruct (delete_first q l) as [l' n]; simpl in *.
  constructor; [tauto | now apply IH].
Qed.

Lemma keeps_unique_ids_insert (c : collection) (o : oid) (b : dict) :
  respects keeps_unique_ids (insert_one c o b).
Proof.
  intros s. unfold insert_one.
  destruct (negb (dict_ok b)); [apply keeps_unique_ids_refl|].
  destruct (existsb _ _) eqn:E; [apply keeps_unique_ids_refl|].
  simpl. intros Hu. apply unique_ids_set_coll; [|exact Hu].
  rewrite map_app; simpl. apply existsb_oid_false_inv in E.
  apply NoDup_app.
  - now apply unique_ids_get_coll.
  - repeat constructor. intros [].
  - intros x Hx [<-|[]]. contradiction.
Qed.

Lemma keeps_unique_ids_update (c : collection) (q : query) (upd : dict) :
  respects keeps_unique_ids (update_one c q upd).
Proof.
  intros s. unfold update_one.
  destruct (query_ok q && dict_ok upd); [|apply keeps_unique_ids_refl].
  pose proof (update_first_ids q upd (get_coll c s)) as Hids.
  destruct (update_first q upd (get_coll c s)) as [l n]; simpl in *.
  intros Hu. apply unique_ids_set_coll; [|exact Hu].
  rewrite Hids. now apply unique_ids_get_coll.
Qed.

Lemma keeps_unique_ids_delete (c : collection) (q : query) :
  respects keeps_unique_ids (delete_one c q).
Proof.
  intros s. unfold delete_one.
  destruct (query_ok q); [|apply keeps_unique_ids_refl].
  pose proof (delete_first_nodup q (get_coll c s)) as Hnd.
  destruct (delete_first q (get_coll c s)) as [l n]; simpl in *.
  intros Hu. apply unique_ids_set_coll; [|exact Hu].
  apply Hnd. now apply unique_ids_get_coll.
Qed.

Ltac keeps_ids :=
  apply (respects_try_except keeps_unique_ids);
  walk constr:(keeps_unique_ids) keeps_unique_ids_refl keeps_unique_ids_trans
    ltac:(first [ apply keeps_unique_ids_insert
                | apply keeps_unique_ids_update
                | apply keeps_unique_ids_delete ]).

(** X4. Every handler that writes keeps [_id] unique within each of the
    three collections, whatever the request and on every path. *)
Theorem handlers_keep_ids_unique (m : method) (cu id : string) (e : env)
    (data : json) (s : store) :
  unique_ids s ->
  unique_ids (snd (register e data s)) /\
  unique_ids (snd (create_template cu e data s)) /\
  unique_ids (snd (create_task cu e data s)) /\
  unique_ids (snd (template_operations m cu e id data s)) /\
  unique_ids (snd (task_operations m cu e id data s)).
Proof.
  intros Hu. split; [|split; [|split; [|split]]].
  - revert Hu. unfold register. keeps_ids.
  - revert Hu. unfold create_template. keeps_ids.
  - revert Hu. unfold create_task. keeps_ids.
  - revert Hu. unfold template_operations. keeps_ids.
  - revert Hu. unfold task_operations. keeps_ids.
Qed.

(** ** What the handlers of one document leave alone *)

Lemma descends_refl keys l : descends keys l l.
Proof. intros t Ht. exists t. auto. Qed.

Lemma descends_trans keys l1 l2 l3 :
  descends keys l1 l2 -> descends keys l2 l3 -> descends keys l1 l3.
Proof.
  intros H12 H23 t3 H3.
  destruct (H23 t3 H3) as (t2 & H2 & Hid2 & Hk2).
  destruct (H12 t2 H2) as (t1 & H1 & Hid1 & Hk1).
  exists t1. split; [exact H1|]. split; [congruence|].
  intros k Hk. now rewrite Hk2, Hk1.
Qed.

Lemma touches_refl c keys s : touches c keys s s.
Proof. split; [reflexivity | apply descends_refl]. Qed.

Lemma touches_trans c keys s1 s2 s3 :
  touches c keys s1 s2 -> touches c keys s2 s3 -> touches c keys s1 s3.
Proof.
  intros [Ho12 Hd12] [Ho23 Hd23]. split.
  - intros c' Hc'. now rewrite Ho23, Ho12.
  - now apply descends_trans with (get_coll c s2).
Qed.

Lemma get_set_coll_same (c : collection) (l : list document) (s : store) :
  get_coll c (set_coll c l s) = l.
Proof. now destruct c. Qed.

Lemma get_set_coll_other (c c' : collection) (l : list document) (s : store) :
  c' <> c -> get_coll c' (set_coll c l s) = get_coll c' s.
Proof. destruct c, c'; simpl; congruence. Qed.

Lemma lookup_not_in_keys (upd : dict) (keys : list string) (k : string) :
  (forall k' v, In (k', v) upd -> In k' keys) -> ~ In k keys -> lookup k upd = None.
Proof.
  intros Hupd Hk. induction upd as [|[k' v] upd IH]; simpl; [reflexivity|].
  destruct (String.eqb k k') eqn:E.
  - apply String.eqb_eq in E. subst k'. exfalso. apply Hk.
    apply (Hupd k v). now left.
  - apply IH. intros k0 v0 H0. apply (Hupd k0 v0). now right.
Qed.

Lemma update_first_descends (q : query) (upd : dict) (keys : list string)
    (l : list document) :
  (forall k v, In (k, v) upd -> In k keys) ->
  descends keys l (fst (update_first q upd l)).
Proof.
  intros Hupd. induction l as [|d l IH]; simpl; [intros t []|].
  destruct (matches q d); simpl.
  - intros t' [<-|Ht'].
    + exists d. split; [now left|]. split; [reflexivity|].
      intros k Hk. apply set_fields_other.
      now apply (lookup_not_in_keys upd keys).
    + exists t'. split; [now right | auto].
  - destruct (update_first q upd l) as [l' n]; simpl in *.
    intros t' [<-|Ht'].
    + exists d. split; [now left | auto].
    + destruct (IH t' Ht') as (t & Ht & Hrest). exists t. split; [now right | exact Hrest].
Qed.

Lemma touches_update (c : collection) (keys : list string) (q : query) (upd : dict) :
  (forall k v, In (k, v) upd -> In k keys) ->
  respects (touches c keys) (update_one c q upd).
Proof.
  intros Hupd s. unfold update_one.
  destruct (query_ok q && dict_ok upd); [|apply touches_refl].
  pose proof (update_first_descends q upd keys (get_coll c s) Hupd) as Hd.
  destruct (update_first q upd (get_coll c s)) as [l n]; simpl in *.
  split.
  - intros c' Hc'. now apply get_set_coll_other.
  - now rewrite get_set_coll_same.
Qed.

Lemma touches_delete (c : collection) (keys : list string) (q : query) :
  respects (touches c keys) (delete_one c q).
Proof.
  intros s. unfold delete_one.
  destruct (query_ok q); [|apply touches_refl].
  pose proof (delete_first_in q (get_coll c s)) as Hin.
  destruct (delete_first q (get_coll c s)) as [l n]; simpl in *.
  split.
  - intros c' Hc'. now apply get_set_coll_other.
  - rewrite get_set_coll_same. intros t' Ht'. exists t'. auto.
Qed.

Ltac only_touches c keys :=
  apply (respects_try_except (touches c keys));
  walk (touches c keys) (touches_refl c keys) (touches_trans c keys)
    ltac:(first [ apply touches_delete
                | apply touches_update;
                  let k := fresh in let v := fresh in let H := fresh in
                  intros k v H; simpl in H;
                  repeat (destruct H as [H|H]; [injection H as <- _; simpl; tauto|]);
                  contradiction ]).

Lemma template_operations_touches (m : method) (cu id : string) (e : env)
    (data : json) (s : store) :
  touches Templates ["template_name"; "subject"; "body"; "updated_at"]
    s (snd (template_operations m cu e id data s)).
Proof. unfold template_operations. only_touches Templates ["template_name"; "subject"; "body"; "updated_at"]. Qed.

Lemma task_operations_touches (m : method) (cu id : string) (e : env)
    (data : json) (s : store) :
  touches Tasks ["is_completed"; "updated_at"]
    s (snd (task_operations m cu e id data s)).
Proof. unfold task_operations. only_touches Tasks ["is_completed"; "updated_at"]. Qed.

(** X5. Whatever the method, the caller and the body, a request on one
    template leaves users and tasks alone and every template left has the
    [_id], [user_id] and [created_at] it had; a request on one task leaves
    users and templates alone and every task left has the [_id], assigner,
    assignee, date, time, message and [created_at] it had.  No document is
    created. *)
Theorem ownership_is_never_reassigned (m : method) (cu id : string) (e : env)
    (data : json) (s : store) :
  (let s' := snd (template_operations m cu e id data s) in
   users s' = users s /\ tasks s' = tasks s /\
   forall t', In t' (templates s') ->
     exists t, In t (templates s) /\ doc_id t = doc_id t' /\
       lookup "user_id" (doc_body t') = lookup "user_id" (doc_body t) /\
       lookup "created_at" (doc_body t') = lookup "created_at" (doc_body t)) /\
  (let s' := snd (task_operations m cu e id data s) in
   users s' = users s /\ templates s' = templates s /\
   forall t', In t' (tasks s') ->
     exists t, In t (tasks s) /\ doc_id t = doc_id t' /\
       forall k, In k ["assigned_by"; "assigned_user"; "task_date"; "task_time";
                       "task_msg"; "created_at"] ->
         lookup k (doc_body t') = lookup k (doc_body t)).
Proof.
  split; cbv zeta.
  - destruct (template_operations_touches m cu id e data s) as [Hother Hd].
    split; [apply (Hother Users); discriminate|].
    split; [apply (Hother Tasks); discriminate|].
    intros t' Ht'. destruct (Hd t' Ht') as (t & Ht & Hid & Hk).
    exists t. split; [exact Ht|]. split; [exact Hid|].
    split; apply Hk; simpl; intuition discriminate.
  - destruct (task_operations_touches m cu id e data s) as [Hother Hd].
    split; [apply (Hother Users); discriminate|].
    split; [apply (Hother Templates); discriminate|].
    intros t' Ht'. destruct (Hd t' Ht') as (t & Ht & Hid & Hk).
    exists t. split; [exact Ht|]. split; [exact Hid|].
    intros k Hin. apply Hk. simpl in *.
    intuition (subst; discriminate).
Qed.

(** ** Requests refused before the store is consulted *)

(** X6. A request whose body [get_json()] parsed to a falsy value ([null],
    [{}], [0], [false], the empty text) is answered 400
    [No input data provided] by every handler that reads a body, and the
    store is left as it was. *)
Theorem empty_body_is_400 (cu id : string) (e : env) (data : json) (s : store) :
  truthy data = false ->
  register e data s = ((Message "No input data provided", 400), s) /\
  login data s = ((Message "No input data provided", 400), s) /\
  create_template cu e data s = ((Message "No input data provided", 400), s) /\
  create_task cu e data s = ((Message "No input data provided", 400), s) /\
  (oid_of_str id <> None ->
   template_operations PUT cu e id data s = ((Message "No input data provided", 400), s) /\
   task_operations PUT cu e id data s = ((Message "No input data provided", 400), s)).
Proof.
  intros H.
  unfold register, login, create_template, create_task, template_operations,
    task_operations, try_except, bind, lift, ret, ObjectId.
  rewrite H. repeat (split; [reflexivity|]).
  intros Hid. destruct (oid_of_str id); [split; reflexivity | contradiction].
Qed.

Lemma all_in_missing (fields : list string) (d : dict) (k : string) :
  In k fields -> lookup k d = None -> all_in fields (JObject d) = Ok false.
Proof.
  intros Hin Hk. induction fields as [|f fs IH]; [destruct Hin|].
  simpl. destruct (lookup f d) eqn:E.
  - destruct Hin as [->|Hin]; [congruence | now apply IH].
  - reflexivity.
Qed.

Lemma missing_field_cases (fields : list string) (d : dict) (k : string) :
  In k fields -> lookup k d = None ->
  truthy (JObject d) = false \/
  (truthy (JObject d) = true /\ all_in fields (JObject d) = Ok false).
Proof.
  intros Hin Hk. destruct d as [|kv d]; [now left|].
  right. split; [reflexivity | now apply (all_in_missing _ _ k)].
Qed.

(** X7. A JSON object lacking one of the fields a handler requires is
    answered 400 and the store is left as it was. *)
Theorem missing_field_is_400 (cu id : string) (e : env) (d : dict) (s : store) :
  ((exists k, In k ["first_name"; "last_name"; "email"; "password"] /\ lookup k d = None) ->
   snd (fst (register e (JObject d) s)) = 400 /\ snd (register e (JObject d) s) = s) /\
  ((exists k, In k ["email"; "password"] /\ lookup k d = None) ->
   snd (fst (login (JObject d) s)) = 400 /\ snd (login (JObject d) s) = s) /\
  ((exists k, In k ["template_name"; "subject"; "body"] /\ lookup k d = None) ->
   snd (fst (create_template cu e (JObject d) s)) = 400 /\
   snd (create_template cu e (JObject d) s) = s) /\
  ((exists k, In k ["assigned_user"; "task_date"; "task_time"; "task_msg"] /\
              lookup k d = None) ->
   snd (fst (create_task cu e (JObject d) s)) = 400 /\
   snd (create_task cu e (JObject d) s) = s) /\
  (lookup "is_completed" d = None ->
   snd (fst (task_operations PUT cu e id (JObject d) s)) = 400 /\
   snd (task_operations PUT cu e id (JObject d) s) = s).
Proof.
  split; [|split; [|split; [|split]]].
  - intros (k & Hin & Hk).
    unfold register, try_except, bind, lift, ret.
    destruct (missing_field_cases _ d k Hin Hk) as [->|[-> ->]]; now split.
  - intros (k & Hin & Hk).
    unfold login, try_except, bind, lift, ret.
    destruct (missing_field_cases _ d k Hin Hk) as [->|[-> ->]]; now split.
  - intros (k & Hin & Hk).
    unfold create_template, try_except, bind, lift, ret.
    destruct (missing_field_cases _ d k Hin Hk) as [->|[-> ->]]; now split.
  - intros (k & Hin & Hk).
    unfold create_task, try_except, bind, lift, ret.
    destruct (missing_field_cases _ d k Hin Hk) as [->|[-> ->]]; now split.
  - intros Hk.
    unfold task_operations, try_except, bind, lift, ret, ObjectId.
    destruct (oid_of_str id); [|now split].
    destruct (missing_field_cases ["is_completed"] d "is_completed"
                (or_introl eq_refl) Hk) as [->|[-> ->]]; now split.
Qed.

(** X8. A path id that [ObjectId] rejects is answered 400 by the handlers
    of one template and of one task, for every method and before the body is
    looked at. *)
Theorem malformed_id_is_400 (m : method) (cu id : string) (e : env) (data : json) (s : store) :
  oid_of_str id = None ->
  template_operations m cu e id data s = ((Message "Invalid template ID format", 400), s) /\
  task_operations m cu e id data s = ((Message "Invalid task ID format", 400), s).
Proof.
  intros H.
  unfold template_operations, task_operations, try_except, bind, lift, ret, ObjectId.
  now rewrite H.
Qed.

(** X9. A JSON body that is a number other than zero, or [true], passes
    [if not data]; [field in data] then raises, and the four POST handlers
    answer 500 with that error, not 400. *)
Theorem scalar_body_is_500 (cu : string) (e : env) (v : value) (s : store) :
  truthy_value v = true -> (forall t, v <> VStr t) ->
  let answer := ((ErrorMessage (TypeError "in" v), 500), s) in
  register e (JScalar v) s = answer /\
  login (JScalar v) s = answer /\
  create_template cu e (JScalar v) s = answer /\
  create_task cu e (JScalar v) s = answer.
Proof.
  intros Ht Hs.
  unfold register, login, create_template, create_task, try_except, bind, lift, ret.
  cbn [truthy]. rewrite Ht. cbn [negb all_in py_in].
  destruct v; try discriminate; try (now repeat split).
  now destruct (Hs s0).
Qed.

(** ** Reading tasks *)

Ltac break_goal :=
  match goal with
  | |- context [match ?x with _ => _ end] =>
      lazymatch x with
      | context [match _ with _ => _ end] => fail
      | _ => destruct x eqn:?
      end
  end.

(** The GET branch of [task_operations] is [find_one] followed by the loop
    body of [get_tasks]. *)
Lemma task_get_unfold (cu : string) (e : env) (id : string) (data : json) (s : store) :
  task_operations GET cu e id data s =
  try_except
    (match ObjectId (generated e) (VStr id) with
     | Raise _ => ret (Message "Invalid task ID format", 400)
     | Ok o =>
         bind (find_one Tasks [IdEq o; FieldEq "assigned_user" (VStr cu)])
           (fun task =>
              match task with
              | None => ret (Message "Task not found", 404)
              | Some t => bind (task_json e (py_dict t)) (fun d => ret (Doc d, 200))
              end)
     end) s.
Proof.
  unfold task_operations, task_json, try_except, bind, lift, ret.
  repeat (break_goal; try reflexivity).
Qed.

Lemma stringify_text (k s : string) (d : dict) :
  lookup k d = Some (VStr s) -> stringify k d = Ok d.
Proof.
  intros H. unfold stringify, dict_getitem. rewrite H. simpl.
  now rewrite dict_set_same.
Qed.

Lemma task_json_run (s : store) (t a u : document) (e : env) (na nu : string) :
  In a (users s) -> In u (users s) -> NoDup (map doc_id (users s)) ->
  lookup "assigned_by" (doc_body t) = Some (VStr (oid_str (doc_id a))) ->
  lookup "assigned_user" (doc_body t) = Some (VStr (oid_str (doc_id u))) ->
  named a na -> named u nu -> dated "created_at" t ->
  exists view,
    task_json e (py_dict t) s = (Ok view, s) /\
    lookup "_id" view = Some (VStr (oid_str (doc_id t))) /\
    lookup "assigned_by_name" view = Some (VStr na) /\
    lookup "assigned_to_name" view = Some (VStr nu) /\
    forall k, k <> "_id" -> k <> "assigned_by_name" -> k <> "assigned_to_name" ->
      lookup k view = option_map (shown_task_field k) (lookup k (doc_body t)).
Proof.
  intros Ha Hu Hnd Hby Hto (fa & la & Hfa & Hla & ->) (fu & lu & Hfu & Hlu & ->) Hc.
  unfold task_json, bind, lift, ret.
  unfold stringify at 1, dict_getitem at 1.
  cbn [py_dict lookup String.eqb Ascii.eqb Bool.eqb dict_set py_str].
  set (d0 := ("_id", VStr (oid_str (doc_id t))) :: doc_body t).
  assert (H0 : forall k, k <> "_id" -> lookup k d0 = lookup k (doc_body t)).
  { intros k Hk. subst d0. simpl. apply String.eqb_neq in Hk. now rewrite Hk. }
  rewrite (stringify_text "assigned_by" (oid_str (doc_id a)) d0)
    by (rewrite H0 by discriminate; exact Hby).
  rewrite (stringify_text "assigned_user" (oid_str (doc_id u)) d0)
    by (rewrite H0 by discriminate; exact Hto).
  unfold dict_getitem. rewrite !H0 by discriminate. rewrite Hby, Hto.
  rewrite !ObjectId_str.
  rewrite (find_one_id Users a) by assumption.
  rewrite (find_one_id Users u) by assumption.
  unfold found_getitem, dict_getitem.
  cbn [py_dict lookup String.eqb Ascii.eqb Bool.eqb].
  rewrite Hfa, Hla, Hfu, Hlu.
  set (d1 := dict_set "assigned_by_name" _ d0).
  set (d2 := dict_set "assigned_to_name" _ d1).
  destruct (isoformat_field_dated "created_at" d2) as (d3 & -> & Hd3 & Hd3').
  { subst d2 d1. rewrite !lookup_dict_set_neq, H0 by discriminate. exact Hc. }
  exists d3. split; [reflexivity|].
  split; [|split; [|split]].
  - rewrite Hd3' by discriminate. subst d2 d1.
    now rewrite !lookup_dict_set_neq by discriminate.
  - rewrite Hd3' by discriminate. subst d2.
    rewrite lookup_dict_set_neq by discriminate. apply lookup_dict_set_eq.
  - rewrite Hd3' by discriminate. apply lookup_dict_set_eq.
  - intros k K1 K2 K3. unfold shown_task_field.
    destruct (String.eqb k "created_at") eqn:E.
    + apply String.eqb_eq in E. subst k. rewrite Hd3. subst d2 d1.
      now rewrite !lookup_dict_set_neq, H0 by discriminate.
    + apply String.eqb_neq in E. rewrite Hd3' by assumption. subst d2 d1.
      rewrite !lookup_dict_set_neq, H0 by assumption.
      now destruct (lookup k (doc_body t)).
Qed.

(** X10. The assignee's GET of a task whose assigner and assignee are stored
    users is answered 200 with the task, [_id] and [created_at] in text, and
    with the two names, each the first and last name of the user joined by a
    space. *)
Theorem task_get_by_assignee (s : store) (t a u : document) (e : env)
    (data : json) (na nu : string) :
  In t (tasks s) -> NoDup (map doc_id (tasks s)) ->
  In a (users s) -> In u (users s) -> NoDup (map doc_id (users s)) ->
  lookup "assigned_by" (doc_body t) = Some (VStr (oid_str (doc_id a))) ->
  lookup "assigned_user" (doc_body t) = Some (VStr (oid_str (doc_id u))) ->
  named a na -> named u nu -> dated "created_at" t ->
  exists view,
    task_operations GET (oid_str (doc_id u)) e (oid_str (doc_id t)) data s =
      ((Doc view, 200), s) /\
    lookup "_id" view = Some (VStr (oid_str (doc_id t))) /\
    lookup "assigned_by_name" view = Some (VStr na) /\
    lookup "assigned_to_name" view = Some (VStr nu) /\
    forall k, k <> "_id" -> k <> "assigned_by_name" -> k <> "assigned_to_name" ->
      lookup k view = option_map (shown_task_field k) (lookup k (doc_body t)).
Proof.
  intros Ht Hndt Ha Hu Hnd Hby Hto Hna Hnu Hc.
  destruct (task_json_run s t a u e na nu Ha Hu Hnd Hby Hto Hna Hnu Hc)
    as (view & Hrun & Hview).
  exists view. split; [|exact Hview].
  rewrite task_get_unfold. unfold try_except, bind, ret.
  rewrite ObjectId_str. unfold find_one.
  cbn [query_ok forallb andb get_coll bson_ok].
  rewrite (scoped_owner _ t "assigned_user" _ Hndt Ht Hto).
  now rewrite Hrun.
Qed.

(** ** Tasks belong to their assignee *)

Lemma task_foreign_404 (s : store) (t : document) (A B : string) (e : env) :
  In t (tasks s) -> NoDup (map doc_id (tasks s)) ->
  lookup "assigned_user" (doc_body t) = Some (VStr A) -> B <> A ->
  (forall data, task_operations GET B e (oid_str (doc_id t)) data s =
                  ((Message "Task not found", 404), s)) /\
  (forall d v, lookup "is_completed" d = Some v ->
     task_operations PUT B e (oid_str (doc_id t)) (JObject d) s =
       ((Message "Task not found", 404), s)) /\
  (forall data, task_operations DELETE B e (oid_str (doc_id t)) data s =
                  ((Message "Task not found", 404), s)).
Proof.
  intros Hin Hnd Hown Hne.
  assert (Hfind : find_one Tasks [IdEq (doc_id t); FieldEq "assigned_user" (VStr B)] s
                  = (Ok None, s)).
  { unfold find_one. cbn [query_ok forallb andb get_coll bson_ok].
    rewrite find_all_false; [reflexivity|].
    now apply (scoped_foreign _ t "assigned_user" A B). }
  split; [|split].
  - intros data. rewrite task_get_unfold. unfold try_except, bind, ret.
    now rewrite ObjectId_str, Hfind.
  - intros d v Hv. unfold task_operations, try_except, bind, lift, ret.
    rewrite ObjectId_str.
    rewrite (lookup_truthy _ _ _ Hv). cbn [negb all_in py_in getitem].
    rewrite Hv. cbn [negb]. now rewrite Hfind.
  - intros data. unfold task_operations, try_except, bind, lift, ret.
    now rewrite ObjectId_str, Hfind.
Qed.

(** X11. A task is reachable by its assignee only: for any other caller,
    the assigner included, GET, DELETE and a PUT carrying [is_completed]
    are answered 404 and leave the store as it was. *)
Theorem task_assignee_isolation (s : store) (t : document) (A B : string)
    (e : env) (d : dict) (v : value) :
  In t (tasks s) -> NoDup (map doc_id (tasks s)) ->
  lookup "assigned_user" (doc_body t) = Some (VStr A) -> B <> A ->
  lookup "is_completed" d = Some v ->
  let id := oid_str (doc_id t) in
  let not_found := ((Message "Task not found", 404), s) in
  (forall data, task_operations GET B e id data s = not_found) /\
  task_operations PUT B e id (JObject d) s = not_found /\
  (forall data, task_operations DELETE B e id data s = not_found).
Proof.
  intros Hin Hnd Hown Hne Hv id not_found.
  destruct (task_foreign_404 s t A B e Hin Hnd Hown Hne) as (Hget & Hput & Hdel).
  split; [exact Hget|]. split; [now apply (Hput d v) | exact Hdel].
Qed.

(** ** Deleted documents are gone *)

Lemma scoped_absent (c : collection) (o : oid) (k : string) (v : value) (s : store) :
  (forall x, In x (get_coll c s) -> doc_id x <> o) ->
  forall x, In x (get_coll c s) -> matches [IdEq o; FieldEq k v] x = false.
Proof.
  intros H x Hx. unfold matches; simpl.
  now rewrite (oid_eqb_neq _ _ (H x Hx)).
Qed.

Lemma split_others (l1 l2 : list document) (t : document) :
  NoDup (map doc_id (l1 ++ t :: l2)) ->
  forall x, In x (l1 ++ l2) -> doc_id x <> doc_id t.
Proof.
  rewrite map_app; simpl. intros Hnd x Hx Heq.
  apply NoDup_remove_2 in Hnd. apply Hnd.
  rewrite <- map_app, <- Heq. now apply in_map.
Qed.



(** X13. After the assignee's DELETE of a task, answered 200, the collection
    holds the other tasks and only them, users and templates are as before,
    and every later GET or DELETE under that id is answered 404. *)
Theorem task_delete_then_gone (s : store) (t : document) (A : string)
    (e : env) (data : json) :
  In t (tasks s) -> NoDup (map doc_id (tasks s)) ->
  lookup "assigned_user" (doc_body t) = Some (VStr A) ->
  exists s',
    task_operations DELETE A e (oid_str (doc_id t)) data s =
      ((Message "Task deleted successfully", 200), s') /\
    users s' = users s /\ templates s' = templates s /\
    (forall x, In x (tasks s') <-> In x (tasks s) /\ x <> t) /\
    forall cu e' data',
      task_operations GET cu e' (oid_str (doc_id t)) data' s' =
        ((Message "Task not found", 404), s') /\
      task_operations DELETE cu e' (oid_str (doc_id t)) data' s' =
        ((Message "Task not found", 404), s').
Proof.
  intros Hin Hnd Hown.
  destruct (scoped_owner_split _ t "assigned_user" A Hnd Hin Hown)
    as (l1 & l2 & Hl & Hl1 & Ht).
  exists (with_tasks s (l1 ++ l2)).
  rewrite Hl in Hnd. pose proof (split_others l1 l2 t Hnd) as Hothers.
  split; [|split; [reflexivity|split; [reflexivity|split]]].
  - unfold task_operations, try_except, bind, lift, ret.
    rewrite ObjectId_str. unfold find_one, delete_one.
    cbn [query_ok forallb andb get_coll bson_ok].
    rewrite <- Hl in Hnd.
    rewrite (scoped_owner _ t "assigned_user" A Hnd Hin Hown).
    now rewrite Hl, (delete_first_split _ l1 l2 t Hl1 Ht).
  - intros x. simpl. rewrite Hl, !in_app_iff. simpl. split.
    + intros Hx. split; [tauto|]. intros ->.
      apply (Hothers t); [apply in_app_iff; exact Hx | reflexivity].
    + intros [[H|[H|H]] Hne]; auto. now subst.
  - intros cu e' data'.
    assert (Hfind : find_one Tasks [IdEq (doc_id t); FieldEq "assigned_user" (VStr cu)]
                      (with_tasks s (l1 ++ l2)) = (Ok None, with_tasks s (l1 ++ l2))).
    { unfold find_one. cbn [query_ok forallb andb bson_ok].
      rewrite find_all_false; [reflexivity|].
      apply scoped_absent. exact Hothers. }
    split.
    + rewrite task_get_unfold. unfold try_except, bind, ret.
      now rewrite ObjectId_str, Hfind.
    + unfold task_operations, try_except, bind, lift, ret.
      now rewrite ObjectId_str, Hfind.
Qed.

(** ** Listing one's own templates and tasks *)

Lemma matches_field (k x : string) (t : document) :
  matches [FieldEq k (VStr x)] t = field_is k x t.
Proof.
  unfold matches, field_is, cond_holds, field_matches; simpl.
  rewrite andb_true_r. now destruct (lookup k (doc_body t)).
Qed.

Lemma field_is_true (k x : string) (t : document) :
  field_is k x t = true <-> lookup k (doc_body t) = Some (VStr x).
Proof.
  unfold field_is. destruct (lookup k (doc_body t)) as [v|].
  - rewrite value_eqb_eq. split; congruence.
  - split; discriminate.
Qed.

Lemma find_field (c : collection) (k x : string) (s : store) :
  find c [FieldEq k (VStr x)] s = (Ok (filter (field_is k x) (get_coll c s)), s).
Proof.
  unfold find; simpl.
  now rewrite (filter_ext _ _ (matches_field k x)).
Qed.

Lemma template_json_dated (t : document) :
  dated "created_at" t -> dated "updated_at" t ->
  exists view, template_json (py_dict t) = Ok view /\ shown_template t view.
Proof.
  intros Hc Hu. unfold template_json, stringify, dict_getitem.
  cbn [py_dict lookup String.eqb Ascii.eqb Bool.eqb dict_set py_str].
  set (d0 := ("_id", VStr (oid_str (doc_id t))) :: doc_body t).
  assert (H0 : forall k, k <> "_id" -> lookup k d0 = lookup k (doc_body t)).
  { intros k Hk. subst d0. simpl. apply String.eqb_neq in Hk. now rewrite Hk. }
  destruct (isoformat_field_dated "created_at" d0) as (d1 & -> & Hd1 & Hd1').
  { rewrite H0 by discriminate. exact Hc. }
  destruct (isoformat_field_dated "updated_at" d1) as (d2 & -> & Hd2 & Hd2').
  { rewrite Hd1', H0 by discriminate. exact Hu. }
  exists d2. split; [reflexivity|]. split.
  - now rewrite Hd2', Hd1' by discriminate.
  - intros k Hk. unfold shown_field.
    destruct (String.eqb k "updated_at") eqn:E2.
    + apply String.eqb_eq in E2. subst k. rewrite orb_true_r.
      now rewrite Hd2, Hd1', H0 by discriminate.
    + rewrite orb_false_r. apply String.eqb_neq in E2.
      rewrite Hd2' by assumption.
      destruct (String.eqb k "created_at") eqn:E1.
      * apply String.eqb_eq in E1. subst k. now rewrite Hd1, H0.
      * apply String.eqb_neq in E1. rewrite Hd1', H0 by assumption.
        now destruct (lookup k (doc_body t)).
Qed.

Lemma map_result_Forall2 {A B} (f : A -> result B) (P : document -> B -> Prop)
    (g : document -> A) (l : list document) :
  (forall t, In t l -> exists v, f (g t) = Ok v /\ P t v) ->
  exists vs, map_result f (map g l) = Ok vs /\ Forall2 P l vs.
Proof.
  induction l as [|t l IH]; simpl; intros H.
  - exists []. split; [reflexivity | constructor].
  - destruct (H t (or_introl eq_refl)) as (v & -> & Hv).
    destruct IH as (vs & -> & Hvs); [intros x Hx; apply H; now right|].
    exists (v :: vs). split; [reflexivity | now constructor].
Qed.

Lemma map_M_Forall2 {A B} (f : A -> M B) (P : document -> B -> Prop)
    (g : document -> A) (l : list document) (s : store) :
  (forall t, In t l -> exists v, f (g t) s = (Ok v, s) /\ P t v) ->
  exists vs, map_M f (map g l) s = (Ok vs, s) /\ Forall2 P l vs.
Proof.
  induction l as [|t l IH]; simpl; intros H.
  - exists []. split; [reflexivity | constructor].
  - destruct (H t (or_introl eq_refl)) as (v & Hrun & Hv).
    destruct IH as (vs & Hruns & Hvs); [intros x Hx; apply H; now right|].
    exists (v :: vs). split; [|now constructor].
    unfold bind, ret. now rewrite Hrun, Hruns.
Qed.

(** X14. [GET /template] answers 200 with the caller's templates, those
    whose [user_id] is the caller's identity, in stored order and no
    others, each with [_id] and dates in text. *)
Theorem get_all_templates_lists_own (cu : string) (s : store) :
  (forall t, In t (templates s) -> lookup "user_id" (doc_body t) = Some (VStr cu) ->
             dated "created_at" t /\ dated "updated_at" t) ->
  exists views,
    get_all_templates cu s = ((Docs views, 200), s) /\
    Forall2 shown_template (filter (field_is "user_id" cu) (templates s)) views /\
    forall t, In t (filter (field_is "user_id" cu) (templates s)) <->
              In t (templates s) /\ lookup "user_id" (doc_body t) = Some (VStr cu).
Proof.
  intros Hdated.
  destruct (map_result_Forall2 template_json shown_template py_dict
              (filter (field_is "user_id" cu) (templates s))) as (views & Hrun & Hviews).
  { intros t Ht. apply filter_In in Ht as [Hin Hown].
    apply field_is_true in Hown. destruct (Hdated t Hin Hown).
    now apply template_json_dated. }
  exists views. split; [|split; [exact Hviews|]].
  - unfold get_all_templates, try_except, bind, lift, ret.
    rewrite find_field. cbn [get_coll]. now rewrite Hrun.
  - intros t. now rewrite filter_In, field_is_true.
Qed.

(** X15. [GET /task] answers 200 with the tasks assigned to the caller, in
    stored order and no others, each with the names of its assigner and of
    the caller, when the assigners are stored users. *)
Theorem get_tasks_lists_assigned (u : document) (e : env) (s : store) (nu : string) :
  In u (users s) -> NoDup (map doc_id (users s)) -> named u nu ->
  (forall t, In t (tasks s) ->
     lookup "assigned_user" (doc_body t) = Some (VStr (oid_str (doc_id u))) ->
     dated "created_at" t /\
     exists a na, In a (users s) /\ named a na /\
       lookup "assigned_by" (doc_body t) = Some (VStr (oid_str (doc_id a)))) ->
  let mine := filter (field_is "assigned_user" (oid_str (doc_id u))) (tasks s) in
  exists views,
    get_tasks (oid_str (doc_id u)) e s = ((Docs views, 200), s) /\
    Forall2 (fun t view =>
               exists a na, In a (users s) /\ named a na /\
                 lookup "assigned_by" (doc_body t) = Some (VStr (oid_str (doc_id a))) /\
                 shown_task t na nu view) mine views /\
    forall t, In t mine <->
              In t (tasks s) /\
              lookup "assigned_user" (doc_body t) = Some (VStr (oid_str (doc_id u))).
Proof.
  intros Hu Hnd Hnu Hwf mine.
  destruct (map_M_Forall2 (task_json e)
              (fun t view =>
                 exists a na, In a (users s) /\ named a na /\
                   lookup "assigned_by" (doc_body t) = Some (VStr (oid_str (doc_id a))) /\
                   shown_task t na nu view)
              py_dict mine s) as (views & Hrun & Hviews).
  { intros t Ht. apply filter_In in Ht as [Hin Hto].
    apply field_is_true in Hto.
    destruct (Hwf t Hin Hto) as (Hc & a & na & Ha & Hna & Hby).
    destruct (task_json_run s t a u e na nu Ha Hu Hnd Hby Hto Hna Hnu Hc)
      as (view & Hview & Hshown).
    exists view. split; [exact Hview|]. exists a, na. auto. }
  exists views. split; [|split; [exact Hviews|]].
  - unfold get_tasks, try_except, bind, ret.
    rewrite find_field. cbn [get_coll]. fold mine. now rewrite Hrun.
  - intros t. unfold mine. now rewrite filter_In, field_is_true.
Qed.

(** ** What is created can be read back *)

Lemma find_app_none {A} (f : A -> bool) (l1 l2 : list A) :
  List.find f l1 = None -> List.find f (l1 ++ l2) = List.find f l2.
Proof.
  induction l1 as [|a l1 IH]; simpl; [reflexivity|].
  destruct (f a); [discriminate | exact IH].
Qed.

Lemma nodup_ids_app (l : list document) (t : document) :
  NoDup (map doc_id l) -> ~ In (doc_id t) (map doc_id l) ->
  NoDup (map doc_id (l ++ [t])).
Proof.
  intros Hnd Hnew. rewrite map_app; simpl. apply NoDup_app.
  - exact Hnd.
  - repeat constructor. intros [].
  - intros x Hx [<-|[]]. contradiction.
Qed.

(** X16. After a registration answered 201, a login with the same email
    and password is answered 200 with a token for the new user's [_id],
    provided the library verifies the hash it produced; and a second
    registration with that email is answered 400. *)
Theorem register_then_login (e : env) (s : store) (d d' : dict)
    (fn ln pw : value) (em h : string) :
  lookup "first_name" d = Some fn -> lookup "last_name" d = Some ln ->
  lookup "email" d = Some (VStr em) -> lookup "password" d = Some pw ->
  (forall u, In u (users s) -> lookup "email" (doc_body u) <> Some (VStr em)) ->
  generate_password_hash (salt e) pw = Ok h ->
  bson_ok fn = true -> bson_ok ln = true ->
  ~ In (new_id e) (map doc_id (users s)) ->
  lookup "email" d' = Some (VStr em) -> lookup "password" d' = Some pw ->
  check_password_hash (VStr h) pw = Ok true ->
  exists s',
    register e (JObject d) s = ((Message "User registered successfully", 201), s') /\
    login (JObject d') s' = ((LoginOk (oid_str (new_id e)), 200), s') /\
    forall e' d2, lookup "first_name" d2 <> None -> lookup "last_name" d2 <> None ->
      lookup "email" d2 = Some (VStr em) -> lookup "password" d2 <> None ->
      register e' (JObject d2) s' = ((Message "Email already registered", 400), s').
Proof.
  intros Hfn Hln Hem Hpw Hnew Hh Hbf Hbl Hid Hem' Hpw' Hck.
  exists (with_user s (new_user e fn ln (VStr em) h)).
  split; [now apply (register_fresh e s d fn ln pw em h)|].
  split.
  - rewrite (login_known _ d' em pw (new_user e fn ln (VStr em) h) (VStr h) true);
      auto.
    unfold user_with_email; simpl.
    rewrite find_app_none by now apply user_with_email_none.
    simpl. unfold email_is; simpl. now rewrite String.eqb_refl.
  - intros e' d2 H1 H2 H3 H4.
    destruct (lookup "first_name" d2) as [f2|] eqn:E1; [|contradiction].
    destruct (lookup "last_name" d2) as [l2|] eqn:E2; [|contradiction].
    destruct (lookup "password" d2) as [p2|] eqn:E4; [|contradiction].
    apply (register_duplicate e' _ d2 f2 l2 p2 em (new_user e fn ln (VStr em) h));
      auto.
    simpl. apply in_app_iff. right. now left.
Qed.

Lemma create_template_run (cu : string) (e : env) (s : store) (d : dict) (n sj b : value) :
  lookup "template_name" d = Some n -> lookup "subject" d = Some sj ->
  lookup "body" d = Some b ->
  bson_ok n = true -> bson_ok sj = true -> bson_ok b = true ->
  ~ In (new_id e) (map doc_id (templates s)) ->
  create_template cu e (JObject d) s =
    ((Created "Template created" (oid_str (new_id e)), 201),
     with_template s (new_template cu e n sj b)).
Proof.
  intros Hn Hsj Hb On Osj Ob Hid.
  unfold create_template, try_except, bind, lift, ret.
  rewrite (lookup_truthy _ _ _ Hn). cbn [negb all_in py_in getitem].
  rewrite Hn, Hsj, Hb. cbn [negb].
  unfold insert_one, dict_ok; simpl forallb.
  rewrite On, Osj, Ob. cbn [andb negb bson_ok get_coll].
  now rewrite (existsb_oid_false _ _ Hid).
Qed.

(** X17. A template that was created is read back by its creator under the
    id the creation returned: the three fields are the ones sent,
    [user_id] is the creator, [created_at] is the creation time in text
    and there is no [updated_at]. *)
Theorem create_template_then_get (cu : string) (e e' : env) (s : store) (d : dict)
    (n sj b : value) (data : json) :
  lookup "template_name" d = Some n -> lookup "subject" d = Some sj ->
  lookup "body" d = Some b ->
  bson_ok n = true -> bson_ok sj = true -> bson_ok b = true ->
  NoDup (map doc_id (templates s)) ->
  ~ In (new_id e) (map doc_id (templates s)) ->
  exists id s' view,
    create_template cu e (JObject d) s = ((Created "Template created" id, 201), s') /\
    template_operations GET cu e' id data s' = ((Doc view, 200), s') /\
    lookup "_id" view = Some (VStr id) /\
    lookup "user_id" view = Some (VStr cu) /\
    lookup "template_name" view = Some n /\
    lookup "subject" view = Some sj /\
    lookup "body" view = Some b /\
    lookup "created_at" view = Some (VStr (isoformat (now e))) /\
    lookup "updated_at" view = None.
Proof.
  intros Hn Hsj Hb On Osj Ob Hnd Hid.
  set (t := new_template cu e n sj b).
  destruct (template_owner_get (with_template s t) t cu e' data)
    as (view & Hget & Hvid & Hk); try exact I.
  - simpl. apply in_app_iff. right. now left.
  - simpl. now apply nodup_ids_app.
  - reflexivity.
  - exists (oid_str (new_id e)), (with_template s t), view.
    split; [now apply create_template_run|].
    split; [exact Hget|]. split; [exact Hvid|].
    rewrite !Hk by discriminate. now repeat split.
Qed.

Lemma find_one_id_some (c : collection) (u : document) (s : store) :
  In u (get_coll c s) ->
  exists u', find_one c [IdEq (doc_id u)] s = (Ok (Some u'), s).
Proof.
  intros Hin. unfold find_one; simpl.
  destruct (find_exists (matches [IdEq (doc_id u)]) (get_coll c s) u Hin) as [u' ->].
  - unfold matches; simpl. now rewrite oid_eqb_refl.
  - now exists u'.
Qed.

Lemma create_task_run (cu txt : string) (e : env) (s : store) (d : dict)
    (td tt tm : value) (u : document) :
  lookup "assigned_user" d = Some (VStr txt) -> lookup "task_date" d = Some td ->
  lookup "task_time" d = Some tt -> lookup "task_msg" d = Some tm ->
  oid_of_str txt = Some (doc_id u) -> In u (users s) ->
  bson_ok td = true -> bson_ok tt = true -> bson_ok tm = true ->
  ~ In (new_id e) (map doc_id (tasks s)) ->
  create_task cu e (JObject d) s =
    ((Created "Task created" (oid_str (new_id e)), 201),
     with_task s (new_task cu e (VStr txt) td tt tm)).
Proof.
  intros Hau Htd Htt Htm Htxt Hu Otd Ott Otm Hid.
  unfold create_task, try_except, bind, lift, ret.
  rewrite (lookup_truthy _ _ _ Hau). cbn [negb all_in py_in getitem].
  rewrite Hau, Htd, Htt, Htm. cbn [negb ObjectId]. rewrite Htxt.
  destruct (find_one_id_some Users u s Hu) as [u' ->].
  unfold insert_one, dict_ok; simpl forallb.
  rewrite Otd, Ott, Otm. cbn [andb negb bson_ok get_coll].
  now rewrite (existsb_oid_false _ _ Hid).
Qed.

(** X18. A task that was created for a stored user, named by the text of
    its identifier, is read back by that user under the id the creation
    returned, with [is_completed] 0, the fields sent and both names; its
    creator, when another user, gets 404. *)
Theorem create_task_then_get (e e' : env) (s : store) (d : dict)
    (td tt tm : value) (a u : document) (na nu : string) (data : json) :
  lookup "assigned_user" d = Some (VStr (oid_str (doc_id u))) ->
  lookup "task_date" d = Some td ->
  lookup "task_time" d = Some tt -> lookup "task_msg" d = Some tm ->
  In a (users s) -> In u (users s) -> NoDup (map doc_id (users s)) ->
  named a na -> named u nu ->
  bson_ok td = true -> bson_ok tt = true -> bson_ok tm = true ->
  NoDup (map doc_id (tasks s)) -> ~ In (new_id e) (map doc_id (tasks s)) ->
  exists id s' view,
    create_task (oid_str (doc_id a)) e (JObject d) s = ((Created "Task created" id, 201), s') /\
    task_operations GET (oid_str (doc_id u)) e' id data s' = ((Doc view, 200), s') /\
    lookup "_id" view = Some (VStr id) /\
    lookup "is_completed" view = Some (VInt 0) /\
    lookup "task_date" view = Some td /\
    lookup "task_time" view = Some tt /\
    lookup "task_msg" view = Some tm /\
    lookup "assigned_by_name" view = Some (VStr na) /\
    lookup "assigned_to_name" view = Some (VStr nu) /\
    (doc_id a <> doc_id u ->
     task_operations GET (oid_str (doc_id a)) e' id data s' =
       ((Message "Task not found", 404), s')).
Proof.
  intros Hau Htd Htt Htm Ha Hu Hndu Hna Hnu Otd Ott Otm Hnd Hid.
  set (t := new_task (oid_str (doc_id a)) e (VStr (oid_str (doc_id u))) td tt tm).
  set (s' := with_task s t).
  assert (Hin : In t (tasks s')) by (simpl; apply in_app_iff; right; now left).
  assert (Hnd' : NoDup (map doc_id (tasks s'))) by (simpl; now apply nodup_ids_app).
  destruct (task_json_run s' t a u e' na nu Ha Hu Hndu eq_refl eq_refl Hna Hnu I)
    as (view & Hjson & Hvid & Hby & Hto & Hk).
  exists (oid_str (new_id e)), s', view.
  split.
  { apply (create_task_run _ _ e s d td tt tm u); auto. apply oid_of_str_str. }
  split.
  { rewrite task_get_unfold. unfold try_except, bind, ret.
    change (oid_str (new_id e)) with (oid_str (doc_id t)).
    rewrite ObjectId_str. unfold find_one.
    cbn [query_ok forallb andb get_coll bson_ok].
    rewrite (scoped_owner _ t "assigned_user" _ Hnd' Hin eq_refl).
    now rewrite Hjson. }
  split; [exact Hvid|].
  rewrite !Hk by discriminate.
  repeat (split; [reflexivity || assumption|]).
  intros Hne.
  destruct (task_foreign_404 s' t (oid_str (doc_id u)) (oid_str (doc_id a)) e'
              Hin Hnd' eq_refl) as (Hget & _).
  - intros Heq. apply oid_str_inj in Heq. contradiction.
  - apply Hget.
Qed.

(** X20. When the assignee of a task has no user document, the task PUT
    writes [is_completed] and [updated_at] first and then fails on the name
    lookup: the answer is 500 and the update stays. *)
Theorem task_put_500_after_write (s : store) (t : document) (o abo : oid) (e : env)
    (d : dict) (v ab : value) :
  In t (tasks s) -> NoDup (map doc_id (tasks s)) ->
  lookup "assigned_user" (doc_body t) = Some (VStr (oid_str o)) ->
  lookup "assigned_by" (doc_body t) = Some ab ->
  ObjectId (generated e) ab = Ok abo ->
  (forall x, In x (users s) -> doc_id x <> o) ->
  lookup "is_completed" d = Some v -> bson_ok v = true ->
  lookup "updated_at" (doc_body t) <> Some (VDate (now e)) ->
  exists l1 l2, tasks s = l1 ++ t :: l2 /\
    task_operations PUT (oid_str o) e (oid_str (doc_id t)) (JObject d) s =
      ((ErrorMessage (TypeError "getitem" VNone), 500),
       with_tasks s (l1 ++ set_fields (task_update e v) t :: l2)) /\
    lookup "is_completed" (doc_body (set_fields (task_update e v) t)) = Some v.
Proof.
  intros Hin Hnd Hau Hab Habo Hnone Hv Ov Hstamp.
  destruct (scoped_owner_split _ t "assigned_user" _ Hnd Hin Hau)
    as (l1 & l2 & Hl & Hl1 & Ht).
  exists l1, l2. split; [exact Hl|]. split.
  - unfold task_operations, try_except, bind, lift, ret.
    rewrite ObjectId_str.
    rewrite (lookup_truthy _ _ _ Hv). cbn [negb all_in py_in getitem].
    rewrite Hv. cbn [negb].
    unfold find_one at 1. cbn [query_ok forallb andb get_coll bson_ok].
    rewrite (scoped_owner _ t "assigned_user" _ Hnd Hin Hau).
    unfold update_one. cbn [query_ok dict_ok forallb andb snd bson_ok get_coll].
    rewrite Ov. cbn [andb].
    rewrite Hl, (update_first_split _ _ l1 l2 t Hl1 Ht).
    fold (task_update e v).
    pose proof (stamped_differs [("is_completed", v)] (VDate (now e)) t Hstamp) as Hd.
    cbn [app] in Hd. fold (task_update e v) in Hd. rewrite Hd.
    cbn [Z.eqb set_coll].
    unfold dict_getitem. cbn [py_dict lookup String.eqb Ascii.eqb Bool.eqb].
    rewrite Hab, Habo.
    match goal with
    | |- context [find_one Users [IdEq abo] ?s1] =>
        destruct (find_one_total Users abo s1) as [r ->]
    end.
    rewrite Hau, ObjectId_str.
    rewrite (find_one_id_none Users o) by exact Hnone.
    reflexivity.
  - unfold set_fields; simpl.
    rewrite lookup_dict_set_neq by discriminate. apply lookup_dict_set_eq.
Qed.

(** X19. The task stores the assignee as the text that was sent, and the
    handlers of one task filter on the text of the caller's identifier.  So
    a task created under another spelling of the assignee's identifier (one
    [ObjectId] accepts but [str] does not give back) is answered 201 and is
    then out of reach: GET, PUT and DELETE under its id are answered 404 for
    every caller whose identity is the text of an identifier. *)
Theorem create_task_other_spelling (cu txt : string) (e e' : env) (s : store) (d : dict)
    (td tt tm : value) (u : document) :
  lookup "assigned_user" d = Some (VStr txt) -> lookup "task_date" d = Some td ->
  lookup "task_time" d = Some tt -> lookup "task_msg" d = Some tm ->
  oid_of_str txt = Some (doc_id u) -> txt <> oid_str (doc_id u) ->
  In u (users s) ->
  bson_ok td = true -> bson_ok tt = true -> bson_ok tm = true ->
  NoDup (map doc_id (tasks s)) -> ~ In (new_id e) (map doc_id (tasks s)) ->
  exists id s',
    create_task cu e (JObject d) s = ((Created "Task created" id, 201), s') /\
    forall o,
      (forall data, task_operations GET (oid_str o) e' id data s' =
                      ((Message "Task not found", 404), s')) /\
      (forall d' v, lookup "is_completed" d' = Some v ->
         task_operations PUT (oid_str o) e' id (JObject d') s' =
           ((Message "Task not found", 404), s')) /\
      (forall data, task_operations DELETE (oid_str o) e' id data s' =
                      ((Message "Task not found", 404), s')).
Proof.
  intros Hau Htd Htt Htm Htxt Hspell Hu Otd Ott Otm Hnd Hid.
  set (t := new_task cu e (VStr txt) td tt tm).
  exists (oid_str (new_id e)), (with_task s t).
  split; [now apply (create_task_run cu txt e s d td tt tm u)|].
  intros o.
  apply (task_foreign_404 (with_task s t) t txt (oid_str o) e').
  - simpl. apply in_app_iff. right. now left.
  - simpl. now apply nodup_ids_app.
  - reflexivity.
  - intros Heq. apply Hspell. rewrite <- Heq in Htxt.
    rewrite oid_of_str_str in Htxt. injection Htxt as ->. now symmetry.
Qed.


End Properties.

(** * The properties on concrete requests *)

Module Runs.

Import Demo.

#[local] Existing Instance Hex24.instance.
#[local] Existing Instance Demo.library.

Definition alice_name : string := "aaaaaaaaaaaaaaaaaaaaaaaa".
Definition bob_name : string := "bbbbbbbbbbbbbbbbbbbbbbbb".
Definition template_name : string := "111111111111111111111111".
Definition task_name : string := "222222222222222222222222".

(** A PUT body that repeats what the stored template holds. *)
Definition same_template : dict :=
  [("template_name", VStr "welcome"); ("subject", VStr "Hello");
   ("body", VStr "Dear all")].

(** A PUT body without the [body] field. *)
Definition partial_template : dict :=
  [("template_name", VStr "welcome"); ("subject", VStr "Hello")].

(** A task creation body; it also carries the two fields the handler
    sets itself. *)
Definition task_for (assigned_user : value) : dict :=
  [("assigned_user", assigned_user); ("task_date", VStr "2024-06-01");
   ("task_time", VStr "10:00"); ("task_msg", VStr "call back");
   ("is_completed", VInt 5); ("assigned_by", VStr "mallory")].

Definition registration (email : string) : dict :=
  [("first_name", VStr "Carol"); ("last_name", VStr "Clark");
   ("email", VStr email); ("password", VStr "s3cret")].

Definition unknown_name : string := "cccccccccccccccccccccccc".

(** The stored template once the owner's PUT of [same_template] at the
    time of [request_env] was applied, and the store holding it. *)
Definition stamped_template : document :=
  {| doc_id := template_id;
     doc_body := [("user_id", VStr "aaaaaaaaaaaaaaaaaaaaaaaa");
                  ("template_name", VStr "welcome"); ("subject", VStr "Hello");
                  ("body", VStr "Dear all"); ("created_at", VDate 3000);
                  ("updated_at", VDate 6000)] |}.

Definition stamped_db : store :=
  {| users := [alice; bob]; templates := [stamped_template]; tasks := [task] |}.

(** A PUT body whose subject is an integer of more than 8 bytes. *)
Definition oversized_template : dict :=
  [("template_name", VStr "welcome"); ("subject", VInt (2 ^ 63));
   ("body", VStr "Dear all")].

Definition credentials (email password : value) : dict :=
  [("email", email); ("password", password)].



Lemma users_nodup : NoDup (map doc_id (users db)).
Proof.
  repeat constructor; simpl; intuition discriminate.
Defined.

Lemma templates_nodup : NoDup (map doc_id (templates db)).
Proof. repeat constructor; simpl; intuition. Defined.

Lemma tasks_nodup : NoDup (map doc_id (tasks db)).
Proof. repeat constructor; simpl; intuition. Defined.

Lemma stamped_templates_nodup : NoDup (map doc_id (templates stamped_db)).
Proof. repeat constructor; simpl; intuition. Defined.

Lemma template_owner_isolation_witness :
  template_operations GET bob_name request_env template_name (JScalar VNone) db =
    ((Message "Template not found", 404), db) /\
  template_operations PUT bob_name request_env template_name (JObject same_template) db =
    ((Message "Template not found", 404), db) /\
  template_operations PUT bob_name request_env template_name (JObject oversized_template) db =
    ((ErrorMessage OverflowError, 500), db) /\
  template_operations DELETE bob_name request_env template_name (JScalar VNone) db =
    ((Message "Template not found", 404), db) /\
  (exists view,
     template_operations GET alice_name request_env template_name (JScalar VNone) db =
       ((Doc view, 200), db) /\
     lookup "_id" view = Some (VStr template_name) /\
     lookup "subject" view = Some (VStr "Hello")) /\
  template_operations PUT alice_name request_env template_name (JObject same_template) db =
    ((Message "Template updated successfully", 200), stamped_db) /\
  template_operations PUT alice_name request_env template_name (JObject same_template)
      stamped_db =
    ((Message "Template not found", 404), stamped_db) /\
  fst (template_operations DELETE alice_name request_env template_name (JScalar VNone) db) =
    (Message "Template deleted successfully", 200).
Proof.
  pose proof (template_owner_isolation db template alice_name bob_name request_env
                same_template (VStr "welcome") (VStr "Hello") (VStr "Dear all")
                (or_introl eq_refl) templates_nodup eq_refl
                ltac:(discriminate) eq_refl eq_refl eq_refl) as W.
  pose proof (template_owner_isolation db template alice_name bob_name request_env
                oversized_template (VStr "welcome") (VInt (2 ^ 63)) (VStr "Dear all")
                (or_introl eq_refl) templates_nodup eq_refl
                ltac:(discriminate) eq_refl eq_refl eq_refl) as W'.
  pose proof (template_owner_isolation stamped_db stamped_template alice_name bob_name
                request_env same_template (VStr "welcome") (VStr "Hello")
                (VStr "Dear all")
                (or_introl eq_refl) stamped_templates_nodup eq_refl
                ltac:(discriminate) eq_refl eq_refl eq_refl) as W''.
  cbv zeta in W, W', W''.
  destruct W as (Hget & Hput & _ & Hdel & Hoget & Hoput & Hodel).
  destruct W' as (_ & _ & Hbad & _).
  destruct W'' as (_ & _ & _ & _ & _ & Hsame & _).
  split; [apply Hget|]. split; [apply Hput; reflexivity|].
  split; [apply (Hbad eq_refl bob_name)|]. split; [apply Hdel|].
  split; [|split; [|split]].
  - destruct (Hoget I I (JScalar VNone)) as (view & Hrun & Hid & Hk).
    exists view. split; [exact Hrun|]. split; [exact Hid|].
    now rewrite Hk.
  - destruct (Hoput eq_refl) as [_ Hnew].
    destruct Hnew as (l1 & l2 & Hl & Hrun).
    + intros (_ & _ & _ & Hstamp). discriminate Hstamp.
    + change (oid_str (doc_id template)) with template_name in Hrun.
      rewrite Hrun. f_equal.
      destruct l1 as [|x l1]; simpl in Hl.
      * now injection Hl as <-.
      * destruct l1; discriminate.
  - destruct (Hsame eq_refl) as [Hnothing _].
    apply Hnothing. repeat split.
  - destruct (Hodel (JScalar VNone)) as (l1 & l2 & _ & Hrun).
    change (oid_str (doc_id template)) with template_name in Hrun.
    now rewrite Hrun.
Defined.

(** Two PUTs by the owner with the same body at the same time: the first
    is answered 200, the second 404; and a PUT by another user whose
    subject the driver cannot encode is answered 500, not 404. *)
Lemma owner_put_writing_nothing_is_404 :
  In template (templates db) /\
  lookup "user_id" (doc_body template) = Some (VStr alice_name) /\
  bob_name <> alice_name /\
  oid_str (doc_id template) = template_name /\
  template_operations PUT alice_name request_env template_name (JObject same_template) db =
    ((Message "Template updated successfully", 200), stamped_db) /\
  template_operations PUT alice_name request_env template_name (JObject same_template)
      stamped_db =
    ((Message "Template not found", 404), stamped_db) /\
  template_operations PUT bob_name request_env template_name (JObject oversized_template) db =
    ((ErrorMessage OverflowError, 500), db).
Proof.
  split; [now left|]. split; [reflexivity|]. split; [discriminate|].
  split; [reflexivity|]. split; [reflexivity|]. split; reflexivity.
Qed.

(** A template PUT repeating the three stored fields, and a task PUT
    repeating [is_completed] (1 to 1), one second after the last update. *)
Lemma repeated_put_is_200 :
  lookup "template_name" (doc_body template) = lookup "template_name" same_template /\
  lookup "subject" (doc_body template) = lookup "subject" same_template /\
  lookup "body" (doc_body template) = lookup "body" same_template /\
  fst (template_operations PUT alice_name request_env template_name (JObject same_template) db) =
    (Message "Template updated successfully", 200) /\
  lookup "is_completed" (doc_body task) = Some (VInt 1) /\
  fst (task_operations PUT bob_name request_env task_name (JObject [("is_completed", VInt 1)]) db) =
    (Updated "Task updated successfully" "Task completed by Bob Brown", 200).
Proof.
  repeat split.
Qed.

Lemma put_repeating_stored_values_witness :
  fst (template_operations PUT alice_name request_env template_name (JObject same_template) db) =
    (Message "Template updated successfully", 200) /\
  fst (task_operations PUT bob_name request_env task_name (JObject [("is_completed", VInt 1)]) db) =
    (Updated "Task updated successfully" "Task completed by Bob Brown", 200) /\
  task_operations PUT bob_name {| now := 5000; new_id := new_id request_env;
                                  generated := generated request_env; salt := "s3" |}
      task_name (JObject [("is_completed", VInt 1)]) db =
    ((Message "Task not found", 404), db).
Proof.
  destruct (put_repeating_stored_values request_env db) as [Htemplate Htask].
  destruct (Htemplate template alice_name same_template
              (VStr "welcome") (VStr "Hello") (VStr "Dear all")) as [Hnew _];
    try reflexivity; [now left | exact templates_nodup |].
  destruct (Htask task bob [("is_completed", VInt 1)] (VInt 1)
              (VStr alice_name) alice_id (VStr "Bob") (VStr "Brown")) as [Hnew' _];
    try reflexivity;
    [now left | exact tasks_nodup | right; now left | exact users_nodup |].
  destruct (put_repeating_stored_values
              {| now := 5000; new_id := new_id request_env;
                 generated := generated request_env; salt := "s3" |} db) as [_ Htask'].
  destruct (Htask' task bob [("is_completed", VInt 1)] (VInt 1)
              (VStr alice_name) alice_id (VStr "Bob") (VStr "Brown")) as [_ Hsame];
    try reflexivity;
    [now left | exact tasks_nodup | right; now left | exact users_nodup |].
  split; [apply Hnew; discriminate|].
  split; [apply Hnew'; discriminate|].
  apply Hsame; reflexivity.
Defined.

Lemma login_outcomes_witness :
  login (JObject (credentials (VStr "bob@example.org") (VStr "builder"))) db =
    ((LoginOk bob_name, 200), db) /\
  login (JObject (credentials (VStr "bob@example.org") (VStr "wrong"))) db =
    ((Message "Invalid credentials", 401), db) /\
  login (JObject (credentials (VStr "nobody@example.org") (VStr "builder"))) db =
    ((Message "Invalid credentials", 401), db) /\
  login (JObject (credentials (VStr "bob@example.org") (VInt 5))) db =
    ((ErrorMessage (AttributeError (VInt 5) "encode"), 500), db) /\
  login (JObject (credentials (VInt (2 ^ 63)) (VStr "builder"))) db =
    ((ErrorMessage OverflowError, 500), db).
Proof.
  split; [|split; [|split; [|split]]].
  - destruct (login_outcomes db (credentials (VStr "bob@example.org") (VStr "builder"))
                (VStr "bob@example.org") (VStr "builder") eq_refl eq_refl)
      as (_ & H & _).
    destruct (H eq_refl) as [_ Hfound].
    destruct (Hfound bob eq_refl) as [_ Hhash].
    destruct (Hhash (VStr "demo$s2$builder") eq_refl) as (_ & Hyes & _).
    apply (Hyes eq_refl).
  - destruct (login_outcomes db (credentials (VStr "bob@example.org") (VStr "wrong"))
                (VStr "bob@example.org") (VStr "wrong") eq_refl eq_refl)
      as (_ & H & _).
    destruct (H eq_refl) as [_ Hfound].
    destruct (Hfound bob eq_refl) as [_ Hhash].
    destruct (Hhash (VStr "demo$s2$builder") eq_refl) as (Hno & _ & _).
    apply (Hno eq_refl).
  - destruct (login_outcomes db (credentials (VStr "nobody@example.org") (VStr "builder"))
                (VStr "nobody@example.org") (VStr "builder") eq_refl eq_refl)
      as (_ & H & Hnone).
    destruct (H eq_refl) as [Hunknown _].
    apply Hunknown. apply (Hnone "nobody@example.org" eq_refl).
    intros u [<-|[<-|[]]]; discriminate.
  - destruct (login_outcomes db (credentials (VStr "bob@example.org") (VInt 5))
                (VStr "bob@example.org") (VInt 5) eq_refl eq_refl)
      as (_ & H & _).
    destruct (H eq_refl) as [_ Hfound].
    destruct (Hfound bob eq_refl) as [_ Hhash].
    destruct (Hhash (VStr "demo$s2$builder") eq_refl) as (_ & _ & Hraise).
    apply (Hraise (AttributeError (VInt 5) "encode") eq_refl).
  - destruct (login_outcomes db (credentials (VInt (2 ^ 63)) (VStr "builder"))
                (VInt (2 ^ 63)) (VStr "builder") eq_refl eq_refl)
      as (H & _ & _).
    apply (H eq_refl).
Defined.

(** A login with Bob's email and the number 5 as password, and one whose
    email is an integer of more than 8 bytes: both carry the two fields,
    neither is answered 401 or 200. *)
Lemma login_numeric_password_is_500 :
  In bob (users db) /\
  lookup "email" (doc_body bob) = Some (VStr "bob@example.org") /\
  login (JObject (credentials (VStr "bob@example.org") (VInt 5))) db =
    ((ErrorMessage (AttributeError (VInt 5) "encode"), 500), db) /\
  login (JObject (credentials (VInt (2 ^ 63)) (VStr "builder"))) db =
    ((ErrorMessage OverflowError, 500), db).
Proof.
  split; [right; now left|]. split; [reflexivity|]. split; reflexivity.
Qed.

Lemma create_task_unknown_assignee_404_witness :
  fst (create_task alice_name request_env (JObject (task_for (VStr unknown_name))) db) =
    (Message "Assigned user not found", 404) /\
  snd (create_task alice_name request_env (JObject (task_for (VStr unknown_name))) db) = db.
Proof.
  apply (create_task_unknown_assignee_404 alice_name request_env db
           (task_for (VStr unknown_name)) (VStr unknown_name)
           (VStr "2024-06-01") (VStr "10:00") (VStr "call back")
           (Hex24.mk unknown_name)); try reflexivity.
  intros u [<-|[<-|[]]]; discriminate.
Defined.




Lemma create_task_initial_fields_witness :
  exists t,
    snd (create_task alice_name request_env (JObject (task_for (VStr bob_name))) db) =
      with_task db t /\
    lookup "is_completed" (doc_body t) = Some (VInt 0) /\
    lookup "assigned_by" (doc_body t) = Some (VStr alice_name).
Proof.
  destruct (create_task_initial_fields alice_name request_env
              (JObject (task_for (VStr bob_name))) db
              (snd (create_task alice_name request_env (JObject (task_for (VStr bob_name))) db))
              (Created "Task created" "333333333333333333333333") eq_refl)
    as (t & Hs & _ & Hc & Hb).
  exists t. now repeat split.
Defined.

Lemma create_task_invalid_assignee_witness :
  create_task alice_name request_env (JObject (task_for (VStr "xyz"))) db =
    ((ErrorMessage (InvalidId (VStr "xyz")), 500), db) /\
  create_task alice_name request_env (JObject (task_for (VInt 12))) db =
    ((ErrorMessage (TypeError "ObjectId" (VInt 12)), 500), db) /\
  create_task alice_name request_env (JObject (task_for VNone)) db =
    ((Message "Assigned user not found", 404), db).
Proof.
  split; [|split].
  - destruct (create_task_invalid_assignee alice_name request_env db
                (task_for (VStr "xyz")) (VStr "xyz")
                (VStr "2024-06-01") (VStr "10:00") (VStr "call back")
                eq_refl eq_refl eq_refl eq_refl) as [H _].
    apply H. reflexivity.
  - destruct (create_task_invalid_assignee alice_name request_env db
                (task_for (VInt 12)) (VInt 12)
                (VStr "2024-06-01") (VStr "10:00") (VStr "call back")
                eq_refl eq_refl eq_refl eq_refl) as [H _].
    apply H. exact I.
  - destruct (create_task_invalid_assignee alice_name request_env db
                (task_for VNone) VNone
                (VStr "2024-06-01") (VStr "10:00") (VStr "call back")
                eq_refl eq_refl eq_refl eq_refl) as [_ H].
    apply H; [reflexivity|]. intros u [<-|[<-|[]]]; discriminate.
Defined.

(** A task creation with a [null] assigned_user. *)
Lemma null_assignee_is_404 :
  lookup "assigned_user" (task_for VNone) = Some VNone /\
  (forall s, VNone <> VStr s) /\
  create_task alice_name request_env (JObject (task_for VNone)) db =
    ((Message "Assigned user not found", 404), db).
Proof.
  split; [reflexivity|]. split; [discriminate | reflexivity].
Qed.

End Runs.

(** * More concrete requests *)

Module MoreRuns.

Import Demo Runs.

#[local] Existing Instance Hex24.instance.
#[local] Existing Instance Demo.library.

(** A store whose only task is assigned to an identifier no user has. *)
Definition orphan_task : document :=
  {| doc_id := task_id;
     doc_body := [("assigned_by", VStr alice_name);
                  ("assigned_user", VStr unknown_name);
                  ("task_msg", VStr "send report"); ("is_completed", VInt 0);
                  ("created_at", VDate 4000)] |}.

Definition orphan_db : store :=
  {| users := [alice; bob]; templates := [template]; tasks := [orphan_task] |}.

Definition new_name : string := "333333333333333333333333".

Definition new_text : dict :=
  [("template_name", VStr "reminder"); ("subject", VStr "Soon");
   ("body", VStr "Do not forget")].

Lemma db_unique_ids : unique_ids db.
Proof.
  split; [exact users_nodup | split; [exact templates_nodup | exact tasks_nodup]].
Defined.

Lemma bob_named : named bob "Bob Brown".
Proof. exists (VStr "Bob"), (VStr "Brown"). now repeat split. Defined.

Lemma alice_named : named alice "Alice Ames".
Proof. exists (VStr "Alice"), (VStr "Ames"). now repeat split. Defined.

Lemma creation_is_all_or_nothing_witness :
  snd (register request_env (JObject (registration "alice@example.org")) db) = db /\
  (exists t, snd (create_template alice_name request_env (JObject new_text) db)
             = with_template db t /\ doc_id t = new_id request_env) /\
  snd (create_task alice_name request_env (JObject (task_for (VStr "xyz"))) db) = db.
Proof.
  split; [|split].
  - destruct (creation_is_all_or_nothing alice_name request_env
                (JObject (registration "alice@example.org")) db
                (snd (register request_env (JObject (registration "alice@example.org")) db))
                (Message "Email already registered", 400)) as (H & _ & _).
    destruct (H eq_refl) as [[H1 _]|[_ H2]]; [discriminate H1 | exact H2].
  - destruct (creation_is_all_or_nothing alice_name request_env
                (JObject new_text) db
                (snd (create_template alice_name request_env (JObject new_text) db))
                (Created "Template created" new_name, 201)) as (_ & H & _).
    destruct (H eq_refl) as [[_ H1]|[H2 _]]; [exact H1 | now elim H2].
  - destruct (creation_is_all_or_nothing alice_name request_env
                (JObject (task_for (VStr "xyz"))) db
                (snd (create_task alice_name request_env (JObject (task_for (VStr "xyz"))) db))
                (ErrorMessage (InvalidId (VStr "xyz")), 500)) as (_ & _ & H).
    destruct (H eq_refl) as [[H1 _]|[_ H2]]; [discriminate H1 | exact H2].
Defined.

Lemma writes_happen_only_on_200_witness :
  snd (template_operations PUT bob_name request_env template_name
         (JObject same_template) db) = db /\
  snd (task_operations DELETE alice_name request_env task_name (JScalar VNone) db) = db.
Proof.
  split.
  - destruct (writes_happen_only_on_200 PUT bob_name request_env template_name
                (JObject same_template) db
                (snd (template_operations PUT bob_name request_env template_name
                        (JObject same_template) db))
                (Message "Template not found", 404)) as [H _].
    apply H; [reflexivity | discriminate].
  - destruct (writes_happen_only_on_200 DELETE alice_name request_env task_name
                (JScalar VNone) db
                (snd (task_operations DELETE alice_name request_env task_name
                        (JScalar VNone) db))
                (Message "Task not found", 404)) as [_ H].
    apply H; [reflexivity | discriminate | discriminate].
Defined.

Lemma handlers_keep_ids_unique_witness :
  unique_ids (snd (register request_env (JObject (registration "carol@example.org")) db)) /\
  unique_ids (snd (task_operations DELETE bob_name request_env task_name (JScalar VNone) db)).
Proof.
  destruct (handlers_keep_ids_unique DELETE bob_name task_name request_env
              (JObject (registration "carol@example.org")) db db_unique_ids)
    as (Hreg & _ & _ & _ & _).
  destruct (handlers_keep_ids_unique DELETE bob_name task_name request_env
              (JScalar VNone) db db_unique_ids)
    as (_ & _ & _ & _ & Hdel).
  split; [exact Hreg | exact Hdel].
Defined.

Lemma empty_body_is_400_witness :
  register request_env (JObject []) db = ((Message "No input data provided", 400), db) /\
  task_operations PUT bob_name request_env task_name (JObject []) db =
    ((Message "No input data provided", 400), db).
Proof.
  destruct (empty_body_is_400 bob_name task_name request_env (JObject []) db eq_refl)
    as (Hreg & _ & _ & _ & Hput).
  split; [exact Hreg|]. apply Hput. discriminate.
Defined.

Lemma missing_field_is_400_witness :
  snd (fst (register request_env (JObject partial_template) db)) = 400 /\
  snd (fst (task_operations PUT bob_name request_env task_name
              (JObject partial_template) db)) = 400.
Proof.
  destruct (missing_field_is_400 bob_name task_name request_env partial_template db)
    as (Hreg & _ & _ & _ & Hput).
  split.
  - apply Hreg. exists "email". split; [simpl; tauto | reflexivity].
  - apply Hput. reflexivity.
Defined.

Lemma malformed_id_is_400_witness :
  template_operations DELETE alice_name request_env "42" (JScalar VNone) db =
    ((Message "Invalid template ID format", 400), db) /\
  task_operations GET bob_name request_env "42" (JScalar VNone) db =
    ((Message "Invalid task ID format", 400), db).
Proof.
  split.
  - apply (malformed_id_is_400 DELETE alice_name "42" request_env (JScalar VNone) db).
    reflexivity.
  - apply (malformed_id_is_400 GET bob_name "42" request_env (JScalar VNone) db).
    reflexivity.
Defined.

Lemma scalar_body_is_500_witness :
  register request_env (JScalar (VInt 5)) db =
    ((ErrorMessage (TypeError "in" (VInt 5)), 500), db) /\
  login (JScalar (VBool true)) db =
    ((ErrorMessage (TypeError "in" (VBool true)), 500), db).
Proof.
  split.
  - apply (scalar_body_is_500 alice_name request_env (VInt 5) db);
      [reflexivity | discriminate].
  - apply (scalar_body_is_500 alice_name request_env (VBool true) db);
      [reflexivity | discriminate].
Defined.

Lemma task_get_by_assignee_witness :
  exists view,
    task_operations GET bob_name request_env task_name (JScalar VNone) db =
      ((Doc view, 200), db) /\
    lookup "assigned_by_name" view = Some (VStr "Alice Ames") /\
    lookup "assigned_to_name" view = Some (VStr "Bob Brown") /\
    lookup "task_msg" view = Some (VStr "send report").
Proof.
  destruct (task_get_by_assignee db task alice bob request_env (JScalar VNone)
              "Alice Ames" "Bob Brown")
    as (view & Hrun & _ & Hby & Hto & Hk);
    try reflexivity; try exact I.
  - now left.
  - exact tasks_nodup.
  - now left.
  - right; now left.
  - exact users_nodup.
  - exact alice_named.
  - exact bob_named.
  - exists view. split; [exact Hrun|]. split; [exact Hby|]. split; [exact Hto|].
    now rewrite Hk.
Defined.

Lemma task_assignee_isolation_witness :
  task_operations GET alice_name request_env task_name (JScalar VNone) db =
    ((Message "Task not found", 404), db) /\
  task_operations PUT alice_name request_env task_name (JObject [("is_completed", VInt 0)]) db =
    ((Message "Task not found", 404), db) /\
  task_operations DELETE alice_name request_env task_name (JScalar VNone) db =
    ((Message "Task not found", 404), db).
Proof.
  pose proof (task_assignee_isolation db task bob_name alice_name request_env
                [("is_completed", VInt 0)] (VInt 0)) as W.
  cbv zeta in W.
  destruct W as (Hget & Hput & Hdel); try reflexivity.
  - now left.
  - exact tasks_nodup.
  - discriminate.
  - split; [apply Hget|]. split; [exact Hput | apply Hdel].
Defined.


Lemma task_delete_then_gone_witness :
  exists s',
    task_operations DELETE bob_name request_env task_name (JScalar VNone) db =
      ((Message "Task deleted successfully", 200), s') /\
    users s' = users db /\
    task_operations GET bob_name request_env task_name (JScalar VNone) s' =
      ((Message "Task not found", 404), s').
Proof.
  destruct (task_delete_then_gone db task bob_name request_env (JScalar VNone))
    as (s' & Hrun & Hu & _ & _ & Hgone); try reflexivity.
  - now left.
  - exact tasks_nodup.
  - exists s'. split; [exact Hrun|]. split; [exact Hu|].
    apply (Hgone bob_name request_env (JScalar VNone)).
Defined.

Lemma get_all_templates_lists_own_witness :
  (exists view, fst (get_all_templates alice_name db) = (Docs [view], 200) /\
                lookup "subject" view = Some (VStr "Hello")) /\
  fst (get_all_templates bob_name db) = (Docs [], 200).
Proof.
  split.
  - destruct (get_all_templates_lists_own alice_name db) as (views & Hrun & Hviews & _).
    + intros t [<-|[]] _. split; exact I.
    + inversion Hviews as [|t v l vs [_ Hk] Hrest]; subst.
      inversion Hrest; subst.
      exists v. rewrite Hrun. split; [reflexivity|]. now rewrite Hk.
  - destruct (get_all_templates_lists_own bob_name db) as (views & Hrun & Hviews & _).
    + intros t [<-|[]] H. discriminate H.
    + inversion Hviews; subst. now rewrite Hrun.
Defined.

Lemma get_tasks_lists_assigned_witness :
  exists view,
    fst (get_tasks bob_name request_env db) = (Docs [view], 200) /\
    lookup "assigned_to_name" view = Some (VStr "Bob Brown") /\
    lookup "_id" view = Some (VStr task_name).
Proof.
  pose proof (get_tasks_lists_assigned bob request_env db "Bob Brown") as W.
  cbv zeta in W.
  destruct W as (views & Hrun & Hviews & _).
  - right; now left.
  - exact users_nodup.
  - exact bob_named.
  - intros t [<-|[]] _. split; [exact I|].
    exists alice, "Alice Ames". split; [now left|]. split; [exact alice_named | reflexivity].
  - inversion Hviews as [|t v l vs (a & na & _ & _ & _ & Hid & _ & Hto & _) Hrest]; subst.
    inversion Hrest; subst.
    exists v. change (oid_str (doc_id bob)) with bob_name in Hrun. rewrite Hrun.
    split; [reflexivity|]. split; [exact Hto | exact Hid].
Defined.

Lemma register_then_login_witness :
  exists s',
    register request_env (JObject (registration "carol@example.org")) db =
      ((Message "User registered successfully", 201), s') /\
    login (JObject [("email", VStr "carol@example.org"); ("password", VStr "s3cret")]) s' =
      ((LoginOk new_name, 200), s') /\
    register request_env (JObject (registration "carol@example.org")) s' =
      ((Message "Email already registered", 400), s').
Proof.
  destruct (register_then_login request_env db (registration "carol@example.org")
              [("email", VStr "carol@example.org"); ("password", VStr "s3cret")]
              (VStr "Carol") (VStr "Clark") (VStr "s3cret") "carol@example.org"
              "demo$s3$s3cret")
    as (s' & Hreg & Hlogin & Hagain); try reflexivity.
  - intros u [<-|[<-|[]]]; discriminate.
  - intros [H|[H|[]]]; discriminate.
  - exists s'. split; [exact Hreg|]. split; [exact Hlogin|].
    apply Hagain; try discriminate. reflexivity.
Defined.

Lemma create_template_then_get_witness :
  exists s' view,
    create_template alice_name request_env (JObject new_text) db =
      ((Created "Template created" new_name, 201), s') /\
    template_operations GET alice_name request_env new_name (JScalar VNone) s' =
      ((Doc view, 200), s') /\
    lookup "subject" view = Some (VStr "Soon").
Proof.
  destruct (create_template_then_get alice_name request_env request_env db new_text
              (VStr "reminder") (VStr "Soon") (VStr "Do not forget") (JScalar VNone))
    as (id & s' & view & Hcreate & Hget & _ & _ & _ & Hsj & _); try reflexivity.
  - exact templates_nodup.
  - intros [H|[]]; discriminate.
  - assert (Hid : id = new_name).
    { assert (H := f_equal (fun x => fst x) Hcreate). simpl in H.
      injection H as H. now symmetry. }
    subst id. now exists s', view.
Defined.

Lemma create_task_then_get_witness :
  exists s' view,
    create_task alice_name request_env (JObject (task_for (VStr bob_name))) db =
      ((Created "Task created" new_name, 201), s') /\
    task_operations GET bob_name request_env new_name (JScalar VNone) s' =
      ((Doc view, 200), s') /\
    lookup "is_completed" view = Some (VInt 0) /\
    lookup "assigned_by_name" view = Some (VStr "Alice Ames") /\
    task_operations GET alice_name request_env new_name (JScalar VNone) s' =
      ((Message "Task not found", 404), s').
Proof.
  destruct (create_task_then_get request_env request_env db (task_for (VStr bob_name))
              (VStr "2024-06-01") (VStr "10:00") (VStr "call back")
              alice bob "Alice Ames" "Bob Brown" (JScalar VNone))
    as (id & s' & view & Hcreate & Hget & _ & Hc & _ & _ & _ & Hby & _ & Hcreator);
    try reflexivity.
  - now left.
  - right; now left.
  - exact users_nodup.
  - exact alice_named.
  - exact bob_named.
  - exact tasks_nodup.
  - intros [H|[]]; discriminate.
  - assert (Hid : id = new_name).
    { assert (H := f_equal (fun x => fst x) Hcreate). simpl in H.
      injection H as H. now symmetry. }
    subst id. exists s', view.
    split; [exact Hcreate|]. split; [exact Hget|]. split; [exact Hc|].
    split; [exact Hby|]. apply Hcreator. discriminate.
Defined.

Lemma create_task_other_spelling_witness :
  exists s',
    create_task (OID := HexAnyCase.instance) (LIB := DemoAnyCase.library)
      "bbbbbbbbbbbbbbbbbbbbbbbb" DemoAnyCase.request_env
      (JObject DemoAnyCase.task_in_capitals) DemoAnyCase.db =
      ((Created "Task created" new_name, 201), s') /\
    task_operations (OID := HexAnyCase.instance) (LIB := DemoAnyCase.library)
      GET "bbbbbbbbbbbbbbbbbbbbbbbb" DemoAnyCase.request_env new_name (JScalar VNone) s' =
      ((Message "Task not found", 404), s').
Proof.
  destruct (create_task_other_spelling (OID := HexAnyCase.instance)
              (LIB := DemoAnyCase.library)
              "bbbbbbbbbbbbbbbbbbbbbbbb" "BBBBBBBBBBBBBBBBBBBBBBBB"
              DemoAnyCase.request_env DemoAnyCase.request_env DemoAnyCase.db
              DemoAnyCase.task_in_capitals
              (VStr "2024-06-01") (VStr "10:00") (VStr "call back") DemoAnyCase.bob)
    as (id & s' & Hcreate & Hgone); try reflexivity.
  - discriminate.
  - now left.
  - constructor.
  - intros [].
  - assert (Hid : id = new_name).
    { assert (H := f_equal (fun x => fst x) Hcreate). simpl in H.
      injection H as H. now symmetry. }
    subst id. exists s'. split; [exact Hcreate|].
    destruct (Hgone (doc_id DemoAnyCase.bob)) as (Hget & _).
    apply Hget.
Defined.

Lemma task_put_500_after_write_witness :
  exists s',
    task_operations PUT unknown_name request_env task_name
      (JObject [("is_completed", VInt 1)]) orphan_db =
      ((ErrorMessage (TypeError "getitem" VNone), 500), s') /\
    s' <> orphan_db.
Proof.
  destruct (task_put_500_after_write orphan_db orphan_task (Hex24.mk unknown_name)
              alice_id request_env [("is_completed", VInt 1)] (VInt 1) (VStr alice_name))
    as (l1 & l2 & Hl & Hrun & Hv); try reflexivity.
  - now left.
  - repeat constructor; simpl; intuition.
  - intros x [<-|[<-|[]]]; discriminate.
  - discriminate.
  - exists (with_tasks orphan_db (l1 ++ set_fields (task_update request_env (VInt 1)) orphan_task :: l2)).
    split; [exact Hrun|].
    destruct l1 as [|x l1]; simpl in Hl.
    + injection Hl as <-. intros H. discriminate H.
    + destruct l1; discriminate.
Defined.


End MoreRuns.
